(** * The plugin registry of singularity: internal/pkg/plugin/binary.go

    A shallow embedding of the registry operations (Install, Uninstall,
    List, Enable, Disable, Inspect) and of the two naming helpers
    (pathFromName, pluginIDFromName), over an explicit file-system state,
    followed by the properties of the registry that the specification
    states. *)

From Stdlib Require Import ZArith Ascii.
From Stdlib Require String.
From stdpp Require Import gmap strings list sorting.

(** ** crypto/sha256

    [pluginIDFromName] calls [sha256.Sum256]; the digest is written out
    here (FIPS 180-4, in the shape of Go's generic block function) on
    32-bit words kept as [Z] with the wrap-around explicit. *)

Module Sha256.
Local Open Scope Z_scope.

Definition u32 (x : Z) : Z := x mod 2 ^ 32.

(** [bits.RotateLeft32 x (-n)] *)
Definition rotr (x n : Z) : Z :=
  Z.lor (Z.shiftr x n) (u32 (Z.shiftl x (32 - n))).

(** [^x] on a uint32 *)
Definition not32 (x : Z) : Z := Z.lxor x (2 ^ 32 - 1).

(** The first 64 primes. *)
Definition primes : list Z :=
  [2; 3; 5; 7; 11; 13; 17; 19; 23; 29; 31; 37; 41; 43; 47; 53;
   59; 61; 67; 71; 73; 79; 83; 89; 97; 101; 103; 107; 109; 113; 127; 131;
   137; 139; 149; 151; 157; 163; 167; 173; 179; 181; 191; 193; 197; 199;
   211; 223; 227; 229; 233; 239; 241; 251; 257; 263; 269; 271; 277; 281;
   283; 293; 307; 311].

(** The integer cube root, one bit after the other from bit [k - 1]. *)
Fixpoint cbrt_bits (k : nat) (n r : Z) : Z :=
  match k with
  | O => r
  | S k' =>
      let r' := r + 2 ^ Z.of_nat k' in
      cbrt_bits k' n (if r' * r' * r' <=? n then r' else r)
  end.

Definition cbrt (n : Z) : Z := cbrt_bits 36 n 0.

(** The round constants: the first 32 bits of the fractional parts of the
    cube roots of the first 64 primes (the table [_K] of the Go source). *)
Definition _K : list Z :=
  Eval vm_compute in map (fun p => u32 (cbrt (p * 2 ^ 96))) primes.

(** The eight chaining words h0..h7 of a digest. *)
Record digest := Digest {
  h0 : Z; h1 : Z; h2 : Z; h3 : Z; h4 : Z; h5 : Z; h6 : Z; h7 : Z
}.

(** The initial value: the first 32 bits of the fractional parts of the
    square roots of the first 8 primes (init0..init7 of the Go source). *)
Definition init_word (p : Z) : Z := u32 (Z.sqrt (p * 2 ^ 64)).

Definition init : digest :=
  Eval vm_compute in
    Digest (init_word 2) (init_word 3) (init_word 5) (init_word 7)
           (init_word 11) (init_word 13) (init_word 17) (init_word 19).

(** w[i] for i < 16: four bytes of the chunk, big endian. *)
Fixpoint words (p : list Z) : list Z :=
  match p with
  | b0 :: b1 :: b2 :: b3 :: rest =>
      Z.lor (Z.lor (Z.lor (Z.shiftl b0 24) (Z.shiftl b1 16)) (Z.shiftl b2 8)) b3
      :: words rest
  | _ => []
  end.

(** w[i] for 16 <= i < 64; [w] holds w[0..i-1]. *)
Definition next_word (w : list Z) : Z :=
  let i := length w in
  let v1 := nth (i - 2) w 0 in
  let t1 := Z.lxor (Z.lxor (rotr v1 17) (rotr v1 19)) (Z.shiftr v1 10) in
  let v2 := nth (i - 15) w 0 in
  let t2 := Z.lxor (Z.lxor (rotr v2 7) (rotr v2 18)) (Z.shiftr v2 3) in
  u32 (t1 + nth (i - 7) w 0 + t2 + nth (i - 16) w 0).

Fixpoint schedule (n : nat) (w : list Z) : list Z :=
  match n with
  | O => w
  | S n' => schedule n' (w ++ [next_word w])
  end.

(** One of the 64 rounds on the working variables a..h. *)
Definition round (v : digest) (kw : Z * Z) : digest :=
  let '(Digest a b c d e f g h) := v in
  let t1 := u32 (h + Z.lxor (Z.lxor (rotr e 6) (rotr e 11)) (rotr e 25)
                   + Z.lxor (Z.land e f) (Z.land (not32 e) g)
                   + fst kw + snd kw) in
  let t2 := u32 (Z.lxor (Z.lxor (rotr a 2) (rotr a 13)) (rotr a 22)
                 + Z.lxor (Z.lxor (Z.land a b) (Z.land a c)) (Z.land b c)) in
  Digest (u32 (t1 + t2)) a b c (u32 (d + t1)) e f g.

(** The body of blockGeneric's loop for one 64-byte chunk. *)
Definition block (dig : digest) (chunk : list Z) : digest :=
  let w := schedule 48 (words chunk) in
  let v := foldl round dig (zip _K w) in
  Digest (u32 (h0 dig + h0 v)) (u32 (h1 dig + h1 v))
         (u32 (h2 dig + h2 v)) (u32 (h3 dig + h3 v))
         (u32 (h4 dig + h4 v)) (u32 (h5 dig + h5 v))
         (u32 (h6 dig + h6 v)) (u32 (h7 dig + h7 v)).

(** [for len(p) >= chunk { ...; p = p[chunk:] }], run [n] times. *)
Fixpoint blocks (n : nat) (dig : digest) (p : list Z) : digest :=
  match n with
  | O => dig
  | S n' => blocks n' (block dig (take 64 p)) (drop 64 p)
  end.

(** The length in bits as eight bytes, big endian. *)
Definition be64 (x : Z) : list Z :=
  map (fun k => Z.shiftr x (8 * k) mod 256) [7; 6; 5; 4; 3; 2; 1; 0].

(** The message followed by 0x80, zeros up to 56 mod 64, and its length. *)
Definition pad (msg : list Z) : list Z :=
  let len := Z.of_nat (length msg) in
  msg ++ [0x80] ++ replicate (Z.to_nat ((55 - len) mod 64)) 0
      ++ be64 ((8 * len) mod 2 ^ 64).

Definition be32 (x : Z) : list Z :=
  map (fun k => Z.shiftr x (8 * k) mod 256) [3; 2; 1; 0].

Definition checkSum (dig : digest) : list Z :=
  let '(Digest a b c d e f g h) := dig in
  be32 a ++ be32 b ++ be32 c ++ be32 d ++ be32 e ++ be32 f ++ be32 g ++ be32 h.

(** [sha256.Sum256(data)], the 32 bytes of the checksum. *)
Definition Sum256 (data : list Z) : list Z :=
  let p := pad data in
  checkSum (blocks (length p / 64) init p).

End Sha256.

(** ** Strings, bytes and fmt's %x *)

(** [[]byte(name)]: a Go string is its sequence of bytes. *)
Definition bytes_of_string (s : string) : list Z :=
  map (fun c => Z.of_N (N_of_ascii c)) (String.list_ascii_of_string s).

(** fmt's table of lower-case digits. *)
Definition ldigits : list ascii :=
  String.list_ascii_of_string "0123456789abcdef".

Definition hexdigit (d : Z) : ascii := nth (Z.to_nat d) ldigits "0"%char.

(** [fmt.Sprintf("%x", sum)] on a byte array: two digits for each byte,
    [digits[c>>4]] then [digits[c&0xF]]. *)
Definition Sprintf_x (sum : list Z) : string :=
  String.string_of_list_ascii
    (flat_map (fun c => [hexdigit (Z.shiftr c 4); hexdigit (Z.land c 15)]) sum).

(** ** Identity *)

(** pathFromName returns a partial path for the plugin relative to the
    plugin installation directory: [filepath.FromSlash], which on the
    hosts singularity runs on (separator '/') returns its argument. *)
Definition pathFromName (name : string) : string := name.

(** pluginIDFromName returns a unique ID for the plugin given its name. *)
Definition pluginIDFromName (name : string) : string :=
  let sum := Sha256.Sum256 (bytes_of_string name) in
  Sprintf_x sum.

Definition is_lower_hex (c : ascii) : bool :=
  bool_decide (c ∈ ldigits).

(** ** Errors *)

Inductive errno :=
  ENOENT | EACCES | ENOTDIR | EISDIR | EEXIST | ENOTEMPTY | ELOOP | EIO | EROFS.

(** The error values that travel through the package. *)
Inductive error :=
  | PathError (op : string) (e : errno)          (* *os.PathError *)
  | ErrBadPattern                                (* filepath.ErrBadPattern *)
  | SifError (e : option errno)                  (* what sif.LoadContainer reports *)
  | DecodeError                                  (* the metadata file does not decode *)
  | NotFound (name : string)                     (* no record resolves for the name *)
  | Errorf (format : string) (args : list string)          (* fmt.Errorf *)
  | Errorw (format : string) (wrapped : error).            (* fmt.Errorf with %w *)

(** [os.IsNotExist]: true for a path error whose cause is ENOENT; an error
    built by [fmt.Errorf] is not looked into. *)
Definition IsNotExist (err : error) : bool :=
  match err with
  | PathError _ ENOENT => true
  | _ => false
  end.

(** A Go pair (value, error). *)
Inductive result (A : Type) :=
  | Ok (a : A)
  | Err (e : error).
Arguments Ok {A} a.
Arguments Err {A} e.

(** ** Images, manifests and metadata records *)

Module pluginapi.
(** [pluginapi.Manifest], with the field the registry reads. *)
Record Manifest := { Name : string }.
End pluginapi.

(** [var manifest pluginapi.Manifest]: the zero value. *)
Definition zeroManifest : pluginapi.Manifest := {| pluginapi.Name := "" |}.

(** A loaded container image ([sif.FileImage]) as far as the registry looks
    into it: whether it carries the plugin descriptor, the manifest it
    embeds and the binary object. *)
Record FileImage := {
  hasDescriptor : bool;
  embedded : pluginapi.Manifest;
  object : string
}.

(** Modelled from the spec: newSifFileImageReader is not in binary.go.
    The Image Adapter wraps the image handle; its two operations read
    the state of the handle and nothing else. *)
Definition newSifFileImageReader (f : FileImage) : FileImage := f.

(** Modelled from the spec: isPluginFile is not in binary.go.
    IsPluginImage returns whether the image contains the recognized plugin
    descriptor section; it is false, not an error, for a well-formed image
    that is not a plugin. *)
Definition isPluginFile (sr : FileImage) : bool := hasDescriptor sr.

(** Modelled from the spec: getManifest is not in binary.go. ReadManifest
    returns the embedded manifest. *)
Definition getManifest (sr : FileImage) : pluginapi.Manifest := embedded sr.

(** [Meta]: the two exported fields and the image handle that Install puts
    in (nil in a record loaded from disk). *)
Record Meta := {
  Name : string;
  Enabled : bool;
  sifFile : option FileImage
}.

(** ** The file system *)

(** An absolute path, as the list of its components below "/". *)
Abbreviation path := (list string).

(** What a regular file holds. Encoding and decoding are the business of
    encoding/json and of the sif package; a file either is the
    serialization of a record, or a container image, or something else. *)
Inductive content :=
  | MetaJSON (name : string) (enabled : bool)
  | SIF (img : FileImage)
  | DefaultConfig
  | Data (bytes : string).

(** What a path resolves to. [Broken e] is an entry that is listed in its
    directory but that no call gets through to: stat and the others report
    [e] (search permission denied, a loop of links, a failing device). A
    path without a node does not exist. *)
Inductive node :=
  | Regular (c : content)
  | Directory
  | Broken (e : errno).

Inductive FileMode := ModeRegular | ModeDir.
Definition IsRegular (fi : FileMode) : bool :=
  match fi with ModeRegular => true | ModeDir => false end.

(** ** Logging (sylog) *)

Inductive level := DebugLevel | InfoLevel.

Inductive arg :=
  | AString (s : string)
  | AMeta (m : Meta)
  | AError (e : error).

(** One call of sylog.Debugf or sylog.Infof: the format and its arguments. *)
Record entry := Entry { lvl : level; format : string; args : list arg }.

(** ** The state the operations run in *)

(** The files, the lines logged so far, and whether the process may
    change the file system at all (it has the rights to, and the file
    system is not mounted read-only). *)
Record state := State {
  files : gmap path node;
  log : list entry;
  writable : bool
}.

(** What the package is configured with: the registry root [rootDir] (a
    package variable, set once at start-up), the working directory of the
    process, and the names of the three files kept in a plugin's
    directory (constants of the package, declared outside binary.go). *)
Record Env := {
  rootDir : path;
  cwd : path;
  NameImage : string;
  NameBinary : string;
  NameConfig : string
}.

(** The state monad of the operations; a Go [error] result is an
    [option error], nil being [None]. *)
Definition M (A : Type) : Type := state -> A * state.

Definition ret {A} (a : A) : M A := fun s => (a, s).
Definition bind {A B} (m : M A) (k : A -> M B) : M B :=
  fun s => let '(a, s') := m s in k a s'.
Definition gets {A} (f : state -> A) : M A := fun s => (f s, s).
Definition emit (e : entry) : M unit :=
  fun s => (tt, State (files s) (log s ++ [e]) (writable s)).

Declare Scope go_scope.
Delimit Scope go_scope with go.
Notation "'let*' x := m 'in' k" := (bind m (fun x => k))
  (at level 10, x pattern, m at level 100, k at level 200) : go_scope.
Notation "m ;;; k" := (bind m (fun _ => k))
  (at level 100, k at level 200, right associativity) : go_scope.

Definition Debugf (fmt : string) (a : list arg) : M unit := emit (Entry DebugLevel fmt a).
Definition Infof (fmt : string) (a : list arg) : M unit := emit (Entry InfoLevel fmt a).

(** ** path/filepath *)

(** The components of a string, cut at every separator. *)
Fixpoint split_slash (s : string) : list string :=
  match s with
  | EmptyString => [EmptyString]
  | String c s' =>
      if decide (c = "/"%char) then EmptyString :: split_slash s'
      else match split_slash s' with
           | x :: xs => String c x :: xs
           | [] => [String c EmptyString]
           end
  end.

(** What [filepath.Clean] does with one more component of a rooted path:
    empty and "." components vanish, ".." drops the component before it
    (and nothing at the root). *)
Definition clean_step (stack : path) (seg : string) : path :=
  if decide (seg = "" \/ seg = ".") then stack
  else if decide (seg = "..") then removelast stack
  else stack ++ [seg].

(** [filepath.Join(dir, elem)] for an absolute, clean [dir]. *)
Definition Join (dir : path) (elem : string) : path :=
  foldl clean_step dir (split_slash elem).

(** The path a string given by the caller names: from "/" when it starts
    with a separator, from the working directory otherwise. The kernel has
    no file for the empty string. *)
Definition resolve (wd : path) (s : string) : option path :=
  match s with
  | EmptyString => None
  | String c _ => if decide (c = "/"%char) then Some (Join [] s) else Some (Join wd s)
  end.

Fixpoint contains_any (chars : list ascii) (s : string) : bool :=
  match s with
  | EmptyString => false
  | String c s' => bool_decide (c ∈ chars) || contains_any chars s'
  end.

(** [hasMeta]: one of the characters a pattern gives a meaning to. *)
Definition hasMeta (s : string) : bool :=
  contains_any ["*"; "?"; "["; "\"]%char s.

(** [filepath.Match] for patterns made of '*' and literal characters (the
    only pattern of the package is "*.meta"): '*' stands for any run of
    characters other than the separator. *)
Fixpoint Match (pattern name : string) : bool :=
  match pattern with
  | EmptyString => bool_decide (name = EmptyString)
  | String p pattern' =>
      if decide (p = "*"%char) then
        (fix star (n : string) : bool :=
           Match pattern' n ||
           match n with
           | EmptyString => false
           | String c n' => if decide (c = "/"%char) then false else star n'
           end) name
      else
        match name with
        | EmptyString => false
        | String c name' => bool_decide (p = c) && Match pattern' name'
        end
  end.

(** The text of a path, for messages. *)
Definition path_string (p : path) : string :=
  "/" +:+ String.concat "/" p.

(** ** System calls on the file system *)

(** What a path leads to when it can be followed. *)
Inductive found :=
  | IsFile (c : content)
  | IsDir.

(** One more component: [p] is the path up to and including it, [here]
    what the path before it led to. *)
Definition enter (fs : gmap path node) (here : found + errno) (p : path)
  : found + errno :=
  match here with
  | inl IsDir =>
      match fs !! p with
      | Some (Regular c) => inl (IsFile c)
      | Some Directory => inl IsDir
      | Some (Broken e) => inr e
      | None => inr ENOENT
      end
  | inl (IsFile _) => inr ENOTDIR
  | inr e => inr e
  end.

Fixpoint namei_from (fs : gmap path node) (here : path) (r : found + errno)
    (rest : list string) : found + errno :=
  match rest with
  | [] => r
  | c :: rest' => namei_from fs (here ++ [c]) (enter fs r (here ++ [c])) rest'
  end.

(** Path resolution, from "/", which is always a directory: every
    component on the way must be a directory. *)
Definition namei (fs : gmap path node) (p : path) : found + errno :=
  namei_from fs [] (inl IsDir) p.

(** [os.Stat]. *)
Definition Stat (fs : gmap path node) (o : option path) : result FileMode :=
  match o with
  | None => Err (PathError "stat" ENOENT)
  | Some p =>
      match namei fs p with
      | inl (IsFile _) => Ok ModeRegular
      | inl IsDir => Ok ModeDir
      | inr e => Err (PathError "stat" e)
      end
  end.

(** Creating or truncating the file at [p] and writing [c] to it. *)
Definition WriteFile (p : path) (c : content) (fs : gmap path node)
  : result (gmap path node) :=
  match p with
  | [] => Err (PathError "open" EISDIR)
  | _ :: _ =>
      match namei fs (removelast p) with
      | inl IsDir =>
          match fs !! p with
          | Some Directory => Err (PathError "open" EISDIR)
          | Some (Broken e) => Err (PathError "open" e)
          | Some (Regular _) | None => Ok (<[p := Regular c]> fs)
          end
      | inl (IsFile _) => Err (PathError "open" ENOTDIR)
      | inr e => Err (PathError "open" e)
      end
  end.

Definition ReadFile (fs : gmap path node) (p : path) : result content :=
  match namei fs p with
  | inl (IsFile c) => Ok c
  | inl IsDir => Err (PathError "read" EISDIR)
  | inr e => Err (PathError "open" e)
  end.

(** [os.MkdirAll], walking down from [here], a directory: a component
    that is missing is made, one that is a directory is entered, anything
    else stops it. *)
Fixpoint MkdirAll_from (here : path) (rest : list string) (fs : gmap path node)
  : result (gmap path node) :=
  match rest with
  | [] => Ok fs
  | c :: rest' =>
      let p := here ++ [c] in
      match fs !! p with
      | Some Directory => MkdirAll_from p rest' fs
      | Some (Regular _) => Err (PathError "mkdir" ENOTDIR)
      | Some (Broken e) => Err (PathError "mkdir" e)
      | None => MkdirAll_from p rest' (<[p := Directory]> fs)
      end
  end.

Definition MkdirAll (p : path) (fs : gmap path node) : result (gmap path node) :=
  MkdirAll_from [] p fs.

(** The name under which [k] is an entry of the directory [dir]. *)
Definition child_name (dir k : path) : option string :=
  match last k with
  | Some b => if decide (k = dir ++ [b]) then Some b else None
  | None => None
  end.

Definition string_le (a b : string) : Prop := String.leb a b = true.
#[global] Instance string_le_dec (a b : string) : Decision (string_le a b).
Proof. unfold string_le. apply _. Defined.

(** [Readdirnames] followed by the sort that Glob applies. *)
Definition Readdirnames (fs : gmap path node) (dir : path) : list string :=
  merge_sort string_le (omap (child_name dir) (elements (dom fs))).

(** [os.Remove]: a file, or a directory that is empty. *)
Definition Remove (p : path) (fs : gmap path node) : result (gmap path node) :=
  match namei fs p with
  | inl (IsFile _) => Ok (delete p fs)
  | inl IsDir =>
      match p, Readdirnames fs p with
      | _ :: _, [] => Ok (delete p fs)
      | _, _ => Err (PathError "remove" ENOTEMPTY)
      end
  | inr e => Err (PathError "remove" e)
  end.

(** filepath's [glob(dir, pattern)]: nothing when [dir] is not a directory
    that can be read, else the joined names that match, in order. *)
Definition glob (fs : gmap path node) (dir : path) (pattern : string) : list path :=
  match Stat fs (Some dir) with
  | Ok ModeDir =>
      map (Join dir) (List.filter (Match pattern) (Readdirnames fs dir))
  | _ => []
  end.

(** [filepath.Glob]. A pattern without pattern characters names at most
    itself. Otherwise it is split into directory and file pattern. A
    directory part that itself holds pattern characters is not expanded
    in this model: it is reported like a malformed pattern. *)
Definition Glob (fs : gmap path node) (pattern : path) : result (list path) :=
  if negb (existsb hasMeta pattern) then
    match Stat fs (Some pattern) with
    | Ok _ => Ok [pattern]
    | Err _ => Ok []
    end
  else
    match last pattern with
    | None => Ok []
    | Some file =>
        let dir := removelast pattern in
        if existsb hasMeta dir then Err ErrBadPattern
        else Ok (glob fs dir file)
    end.

(** [sif.LoadContainer(path, true)]: the image in the file, or the
    decorated error of the sif package. *)
Definition LoadContainer (fs : gmap path node) (o : option path) : result FileImage :=
  match o with
  | None => Err (SifError (Some ENOENT))
  | Some p =>
      match namei fs p with
      | inl (IsFile (SIF img)) => Ok img
      | inl (IsFile _) => Err (SifError None)
      | inl IsDir => Err (SifError (Some EISDIR))
      | inr e => Err (SifError (Some e))
      end
  end.

(** One step that changes the file system, or fails and leaves it. No
    change is possible without write access. *)
Definition step (op : gmap path node -> result (gmap path node)) : M (option error) :=
  fun s =>
    if writable s then
      match op (files s) with
      | Ok fs' => (None, State fs' (log s) (writable s))
      | Err e => (Some e, s)
      end
    else (Some (PathError "write" EROFS), s).

(** [if err := a; err != nil { return err }; b] *)
Definition and_then (a b : M (option error)) : M (option error) :=
  bind a (fun r => match r with Some e => ret (Some e) | None => b end).

Section Registry.

Variable env : Env.

Local Open Scope go_scope.

(** ** The metadata record (Meta) *)

(** Modelled from the spec: the directory of a plugin is not in
    binary.go. It is <fragment> under the registry root, the fragment
    being the plugin name as a relative path. *)
Definition baseDir (m : Meta) : path :=
  Join (rootDir env) (pathFromName (Name m)).

(** Modelled from the spec: the path of the metadata file is not in
    binary.go. It is <fragment>.meta under the registry root. *)
Definition metaName (m : Meta) : path :=
  Join (rootDir env) (pathFromName (Name m) +:+ ".meta").

(** Modelled from the spec: Meta.imageName is not in binary.go. It
    returns the path of the installed image copy, located under
    <fragment>. *)
Definition imageName (m : Meta) : path := Join (baseDir m) (NameImage env).

(** Modelled from the spec: the path of the extracted binary object is
    not in binary.go. It is located under <fragment>. *)
Definition binaryName (m : Meta) : path := Join (baseDir m) (NameBinary env).

(** Modelled from the spec: the path of the default configuration is not
    in binary.go. It is written alongside the binary object. *)
Definition configName (m : Meta) : path := Join (baseDir m) (NameConfig env).

(** Modelled from the spec: Meta.install is not in binary.go. In order:
    (a) create any missing parent directories for the fragment path;
    (b) copy the source image verbatim to the image-copy location;
    (c) extract the embedded binary object to the binary location;
    (d) write a default configuration alongside it; (e) serialize
    {Name, Enabled:true} to the metadata file. The first step that fails
    is reported and no later step runs; earlier steps are not rolled
    back, and no metadata file is left unless (a)-(d) succeeded. *)
Definition install (m : Meta) : M (option error) :=
  match sifFile m with
  | None => ret (Some (Errorf "no image to install plugin %q from" [Name m]))
  | Some img =>
      and_then (step (MkdirAll (baseDir m)))
     (and_then (step (WriteFile (imageName m) (SIF img)))
     (and_then (step (WriteFile (binaryName m) (Data (object img))))
     (and_then (step (WriteFile (configName m) DefaultConfig))
               (step (WriteFile (metaName m) (MetaJSON (Name m) true))))))
  end.

(** [Remove], where a file that is not there is no failure. *)
Definition remove_if_there (p : path) (fs : gmap path node) : result (gmap path node) :=
  match Remove p fs with
  | Err e => if IsNotExist e then Ok fs else Err e
  | Ok fs' => Ok fs'
  end.

(** Modelled from the spec: Meta.uninstall is not in binary.go. It removes
    the metadata file, the image copy and the extracted binary object;
    missing files are not fatal. *)
Definition uninstall (m : Meta) : M (option error) :=
  and_then (step (remove_if_there (metaName m)))
 (and_then (step (remove_if_there (imageName m)))
           (step (remove_if_there (binaryName m)))).

(** Modelled from the spec: Meta.enable is not in binary.go. It flips
    [Enabled] and rewrites the metadata file; whether the record already
    is in the requested state is not its business. *)
Definition enable (m : Meta) : M (option error) :=
  step (WriteFile (metaName m) (MetaJSON (Name m) true)).

(** Modelled from the spec: Meta.disable is not in binary.go. It flips
    [Enabled] and rewrites the metadata file. *)
Definition disable (m : Meta) : M (option error) :=
  step (WriteFile (metaName m) (MetaJSON (Name m) false)).

(** Modelled from the spec: loadMetaByFilename is not in binary.go. It
    reads a metadata file and parses the record in it. *)
Definition loadMetaByFilename (fs : gmap path node) (p : path) : result Meta :=
  match ReadFile fs p with
  | Err e => Err e
  | Ok (MetaJSON name enabled) =>
      Ok {| Name := name; Enabled := enabled; sifFile := None |}
  | Ok _ => Err DecodeError
  end.

(** Modelled from the spec: loadMetaByName is not in binary.go. It
    resolves a record by name, NotFound if absent or unreadable. *)
Definition loadMetaByName (fs : gmap path node) (name : string) : result Meta :=
  match loadMetaByFilename fs
          (metaName {| Name := name; Enabled := false; sifFile := None |}) with
  | Ok m => Ok m
  | Err _ => Err (NotFound name)
  end.

(** ** The registry operations of binary.go *)

(** Install installs a plugin from a SIF image under rootDir. The
    deferred UnloadContainer releases the handle and changes nothing of
    the state kept here. *)
Definition Install (sifPath : string) (name : string) : M (option error) :=
  Debugf "Installing plugin from SIF to %q" [AString (path_string (rootDir env))] ;;;
  let* fs := gets files in
  match LoadContainer fs (resolve (cwd env) sifPath) with
  | Err err => ret (Some (Errorw "could not load plugin: %w" err))
  | Ok sifFile =>
      let sr := newSifFileImageReader sifFile in
      if negb (isPluginFile sr) then
        ret (Some (Errorf "not a valid plugin" []))
      else
        let manifest := getManifest sr in
        let name := if decide (name = "") then pluginapi.Name manifest else name in
        let m := {| Name := name; Enabled := true; sifFile := Some sifFile |} in
        let* err := install m in
        match err with
        | Some err => ret (Some (Errorw "could not install plugin: %w" err))
        | None => ret None
        end
  end.

(** Uninstall removes the plugin matching "name" from the singularity
    plugin installation directory. *)
Definition Uninstall (name : string) : M (option error) :=
  Debugf "Uninstalling plugin %q from %q"
    [AString name; AString (path_string (rootDir env))] ;;;
  let* fs := gets files in
  match loadMetaByName fs name with
  | Err err => ret (Some err)
  | Ok meta =>
      Debugf "Found plugin %q, meta=%#v" [AString name; AMeta meta] ;;;
      uninstall meta
  end.

(** The body of List's loop over the entries. *)
Fixpoint List_loop (entries : list path) (metas : list Meta) : M (list Meta) :=
  match entries with
  | [] => ret metas
  | entry :: entries' =>
      let* fs := gets files in
      match Stat fs (Some entry) with
      | Err err =>
          Debugf "Error stating %s: %s. Skip\n"
            [AString (path_string entry); AError err] ;;;
          List_loop entries' metas
      | Ok fi =>
          if negb (IsRegular fi) then List_loop entries' metas
          else
            match loadMetaByFilename fs entry with
            | Err err =>
                Debugf "Error loading %s: %s. Skip"
                  [AString (path_string entry); AError err] ;;;
                List_loop entries' metas
            | Ok meta => List_loop entries' (metas ++ [meta])
            end
      end
  end.

(** List returns all the singularity plugins installed in rootDir in the
    form of a list of Meta information. *)
Definition List : M (list Meta * option error) :=
  let pattern := Join (rootDir env) "*.meta" in
  let* fs := gets files in
  match Glob fs pattern with
  | Err _ =>
      ret ([], Some (Errorf "cannot list plugins in directory %q"
                       [path_string (rootDir env)]))
  | Ok entries =>
      let* metas := List_loop entries [] in
      ret (metas, None)
  end.

(** Enable enables the plugin named "name" found under rootDir. *)
Definition Enable (name : string) : M (option error) :=
  Debugf "Enabling plugin %q in %q"
    [AString name; AString (path_string (rootDir env))] ;;;
  let* fs := gets files in
  match loadMetaByName fs name with
  | Err err => ret (Some err)
  | Ok meta =>
      Debugf "Found plugin %q, meta=%#v" [AString name; AMeta meta] ;;;
      if Enabled meta then
        Infof "Plugin %q is already enabled" [AString name] ;;;
        ret None
      else enable meta
  end.

(** Disable disables the plugin named "name" found under rootDir. *)
Definition Disable (name : string) : M (option error) :=
  Debugf "Disabling plugin %q in %q"
    [AString name; AString (path_string (rootDir env))] ;;;
  let* fs := gets files in
  match loadMetaByName fs name with
  | Err err => ret (Some err)
  | Ok meta =>
      Debugf "Found plugin %q, meta=%#v" [AString name; AMeta meta] ;;;
      if negb (Enabled meta) then
        Infof "Plugin %q is already disabled" [AString name] ;;;
        ret None
      else disable meta
  end.

(** The part of Inspect after the existence check, on the file name it
    settled on: at this point, either the file is there under the
    original name or one was found by looking at the metafile. *)
Definition Inspect_load (manifest : pluginapi.Manifest)
    (fs : gmap path node) (name : option path)
  : M (pluginapi.Manifest * option error) :=
  match LoadContainer fs name with
  | Err err => ret (manifest, Some err)
  | Ok fimg =>
      let r := newSifFileImageReader fimg in
      if negb (isPluginFile r) then
        ret (manifest, Some (Errorf "not a valid plugin" []))
      else
        let manifest := getManifest r in
        ret (manifest, None)
  end.

(** Inspect obtains information about the plugin "name": either the name
    of a plugin installed under rootDir or the name of an image file
    corresponding to a plugin. *)
Definition Inspect (name : string) : M (pluginapi.Manifest * option error) :=
  let manifest := zeroManifest in
  let load := Inspect_load manifest in
  let* fs := gets files in
  match Stat fs (resolve (cwd env) name) with
  | Err err =>
      if IsNotExist err then
        (* no file, try to find the installed plugin *)
        match loadMetaByName fs name with
        | Err err => ret (manifest, Some err)
        | Ok meta => load fs (Some (imageName meta))
        end
      else
        (* there seems to be a file here, but we cannot read it *)
        ret (manifest, Some err)
  | Ok _ => load fs (resolve (cwd env) name)
  end.

End Registry.

(** ** Vocabulary of the properties *)

(** The error of the taxonomy that binary.go builds for an image without
    plugin descriptor. *)
Definition NotAPlugin : error := Errorf "not a valid plugin" [].

(** The state [s] with more lines in the log and nothing else changed. *)
Definition logged (s : state) (lines : list entry) : state :=
  State (files s) (log s ++ lines) (writable s).

(** A record as it is loaded from disk. *)
Definition record (name : string) (enabled : bool) : Meta :=
  {| Name := name; Enabled := enabled; sifFile := None |}.

(** The record List takes from an entry: the entry is a regular file and
    parses. *)
Definition recorded (fs : gmap path node) (entry : path) : option Meta :=
  match Stat fs (Some entry) with
  | Ok ModeRegular =>
      match loadMetaByFilename fs entry with
      | Ok meta => Some meta
      | Err _ => None
      end
  | _ => None
  end.

(** What List writes to the log for an entry. *)
Definition skip_note (fs : gmap path node) (p : path) : list entry :=
  match Stat fs (Some p) with
  | Err err =>
      [Entry DebugLevel "Error stating %s: %s. Skip\n"
             [AString (path_string p); AError err]]
  | Ok ModeDir => []
  | Ok ModeRegular =>
      match loadMetaByFilename fs p with
      | Err err =>
          [Entry DebugLevel "Error loading %s: %s. Skip"
                 [AString (path_string p); AError err]]
      | Ok _ => []
      end
  end.

(** A name without path separator. *)
Definition no_slash (s : string) : Prop :=
  "/"%char ∉ String.list_ascii_of_string s.


(** A configuration, an image and a small tree to run the operations on. *)
Definition sample_env : Env :=
  {| rootDir := ["usr"; "libexec"; "singularity"; "plugin"];
     cwd := ["home"];
     NameImage := "plugin.sif";
     NameBinary := "object.so";
     NameConfig := "config.yaml" |}.

Definition sample_image : FileImage :=
  {| hasDescriptor := true;
     embedded := {| pluginapi.Name := "examples/log" |};
     object := "ELF" |}.

Definition plain_image : FileImage :=
  {| hasDescriptor := false;
     embedded := zeroManifest;
     object := "" |}.

Definition sample_files : gmap path node :=
  <[ ["home"] := Directory ]>
  (<[ ["home"; "log.sif"] := Regular (SIF sample_image) ]>
  (<[ ["home"; "ubuntu.sif"] := Regular (SIF plain_image) ]>
  (<[ ["home"; "secret"] := Broken EACCES ]> ∅))).

Definition sample_state : state := State sample_files [] true.

(** The sample tree after installing the sample image as "log", and
    after disabling it. *)
Definition installed_state : state :=
  snd (Install sample_env "log.sif" "log" sample_state).

Definition disabled_state : state :=
  snd (Disable sample_env "log" installed_state).

(** The same registry for a process that cannot write to it. *)
Definition readonly_state : state :=
  State (files installed_state) [] false.

(** The registry of [installed_state] with three more entries that match
    the pattern of List: a file that does not parse, a directory, and an
    entry that stat cannot get through to. *)
Definition cluttered_state : state :=
  State (<[ rootDir sample_env ++ ["bad.meta"] := Regular (Data "{") ]>
        (<[ rootDir sample_env ++ ["dir.meta"] := Directory ]>
        (<[ rootDir sample_env ++ ["loop.meta"] := Broken ELOOP ]>
           (files installed_state))))
        [] true.

(** * Properties *)

(** ** Identity *)





Lemma hexdigit_lower (d : Z) : is_lower_hex (hexdigit d) = true.
Proof.
  unfold is_lower_hex, hexdigit. apply bool_decide_eq_true.
  destruct (Z.to_nat d) as [|[|[|[|[|[|[|[|[|[|[|[|[|[|[|[|n]]]]]]]]]]]]]]]];
    simpl; try (destruct n); set_solver.
Qed.

Lemma Sprintf_x_lower (sum : list Z) :
  Forall (fun c => is_lower_hex c = true)
         (String.list_ascii_of_string (Sprintf_x sum)).
Proof.
  unfold Sprintf_x. rewrite String.list_ascii_of_string_of_list_ascii.
  induction sum as [|b sum IH]; simpl.
  - constructor.
  - repeat constructor; auto using hexdigit_lower.
Qed.

Example round_constants :
  (nth 0 Sha256._K 0 = 0x428a2f98 /\ nth 63 Sha256._K 0 = 0xc67178f2)%Z
  /\ length Sha256._K = 64.
Proof. repeat split. Qed.

Example initial_value :
  (Sha256.h0 Sha256.init = 0x6a09e667 /\ Sha256.h7 Sha256.init = 0x5be0cd19)%Z.
Proof. split; reflexivity. Qed.

Example pluginID_abc :
  pluginIDFromName "abc"
  = "ba7816bf8f01cfea414140de5dae2223b00361a396177a9cb410ff61f20015ad".
Proof. vm_compute. reflexivity. Qed.

Example pluginID_empty :
  pluginIDFromName ""
  = "e3b0c44298fc1c149afbf4c8996fb92427ae41e4649b934ca495991b7852b855".
Proof. vm_compute. reflexivity. Qed.

Example pluginID_two_blocks :
  pluginIDFromName "abcdbcdecdefdefgefghfghighijhijkijkljklmklmnlmnomnopnopq"
  = "248d6a61d20638b8e5c026930c3e6039a33ce45964ff2167f6ecedd419db06c1".
Proof. vm_compute. reflexivity. Qed.



(** ** Path resolution *)

Lemma namei_from_app fs here r xs ys :
  namei_from fs here r (xs ++ ys)
  = namei_from fs (here ++ xs) (namei_from fs here r xs) ys.
Proof.
  revert here r. induction xs as [|x xs IH]; intros here r; simpl.
  - by rewrite app_nil_r.
  - rewrite IH. by rewrite <- app_assoc.
Qed.

Lemma namei_snoc fs p c :
  namei fs (p ++ [c]) = enter fs (namei fs p) (p ++ [c]).
Proof. unfold namei. rewrite namei_from_app. reflexivity. Qed.

Lemma namei_nil fs : namei fs [] = inl IsDir.
Proof. reflexivity. Qed.

(** Resolution of [p] only looks at the prefixes of [p]. *)
Lemma namei_agree fs fs' p :
  (forall q, q `prefix_of` p -> fs !! q = fs' !! q) ->
  namei fs p = namei fs' p.
Proof.
  induction p as [|c p IH] using rev_ind; intros Hagree; [reflexivity|].
  rewrite !namei_snoc, IH.
  - unfold enter. rewrite (Hagree (p ++ [c])); [reflexivity|done].
  - intros q Hq. apply Hagree. by apply prefix_app_r.
Qed.

Lemma namei_insert_other fs q n p :
  ~ q `prefix_of` p -> namei (<[q := n]> fs) p = namei fs p.
Proof.
  intros Hq. apply namei_agree. intros q' Hq'.
  apply lookup_insert_ne. intros ->. contradiction.
Qed.

Lemma not_prefix_removelast (p : path) : p <> [] -> ~ p `prefix_of` removelast p.
Proof.
  intros Hp Hpre. apply prefix_length in Hpre.
  destruct p as [|c p] using rev_ind; [done|].
  rewrite removelast_last, length_app in Hpre. simpl in Hpre. lia.
Qed.

(** What resolution says of a path that leads somewhere. *)
Lemma namei_inl fs p x :
  namei fs p = inl x ->
  p = [] /\ x = IsDir
  \/ p <> [] /\ namei fs (removelast p) = inl IsDir
     /\ fs !! p = Some (match x with IsFile c => Regular c | IsDir => Directory end).
Proof.
  destruct p as [|c p _] using rev_ind.
  - rewrite namei_nil. intros [= <-]. by left.
  - rewrite namei_snoc, removelast_last. intros H. right.
    split; [by destruct p|].
    unfold enter in H.
    destruct (namei fs p) as [[?|]|]; try discriminate.
    split; [reflexivity|].
    destruct (fs !! (p ++ [c])) as [[?| |?]|]; try discriminate;
      injection H as <-; reflexivity.
Qed.

(** A file written below a directory is found there. *)
Lemma namei_insert_file fs p c :
  p <> [] -> namei fs (removelast p) = inl IsDir ->
  namei (<[p := Regular c]> fs) p = inl (IsFile c).
Proof.
  intros Hp Hdir.
  rewrite (app_removelast_last "" Hp) at 2.
  rewrite namei_snoc.
  rewrite namei_insert_other by by apply not_prefix_removelast.
  rewrite Hdir. unfold enter.
  rewrite <- (app_removelast_last "" Hp).
  by rewrite lookup_insert_eq.
Qed.

Lemma WriteFile_Ok p c fs fs' :
  WriteFile p c fs = Ok fs' ->
  p <> [] /\ namei fs (removelast p) = inl IsDir
  /\ fs !! p <> Some Directory /\ fs' = <[p := Regular c]> fs.
Proof.
  unfold WriteFile. destruct p as [|x p]; [discriminate|].
  destruct (namei fs (removelast (x :: p))) as [[?|]|]; try discriminate.
  destruct (fs !! (x :: p)) as [[?| |?]|] eqn:E; try discriminate;
    intros [= <-]; repeat split; congruence.
Qed.

Lemma WriteFile_read p c fs fs' :
  WriteFile p c fs = Ok fs' -> ReadFile fs' p = Ok c.
Proof.
  intros (Hp & Hdir & _ & ->)%WriteFile_Ok.
  unfold ReadFile. by rewrite namei_insert_file.
Qed.

(** Writing over a file that is there always works. *)
Lemma WriteFile_over p c c' fs :
  namei fs p = inl (IsFile c) ->
  WriteFile p c' fs = Ok (<[p := Regular c']> fs).
Proof.
  intros [[_ [=]]|(Hp & Hdir & Hlook)]%namei_inl.
  unfold WriteFile. destruct p as [|x p]; [done|].
  rewrite Hdir, Hlook. reflexivity.
Qed.

(** ** Loading records *)

Lemma loadMetaByName_Err env fs name err :
  loadMetaByName env fs name = Err err -> err = NotFound name.
Proof.
  unfold loadMetaByName. destruct (loadMetaByFilename _ _); congruence.
Qed.

Lemma loadMetaByFilename_Ok fs p meta :
  loadMetaByFilename fs p = Ok meta ->
  namei fs p = inl (IsFile (MetaJSON (Name meta) (Enabled meta)))
  /\ sifFile meta = None.
Proof.
  unfold loadMetaByFilename, ReadFile.
  destruct (namei fs p) as [[c|]|]; try discriminate.
  destruct c; try discriminate. intros [= <-]. done.
Qed.

Lemma loadMetaByFilename_file fs p name enabled :
  namei fs p = inl (IsFile (MetaJSON name enabled)) ->
  loadMetaByFilename fs p = Ok (record name enabled).
Proof. intros H. unfold loadMetaByFilename, ReadFile. rewrite H. reflexivity. Qed.


Ltac run :=
  cbv beta iota zeta delta [bind ret gets emit Debugf Infof step and_then];
  cbn [files log writable fst snd].

(** ** Install *)

(** C3: an image that loads but carries no plugin descriptor makes
    Install return the "not a valid plugin" error; no installation step
    runs: the file system is the one Install started with, and the only
    trace is the debug line at entry. *)
Theorem Install_not_a_plugin env sifPath name img s :
  LoadContainer (files s) (resolve (cwd env) sifPath) = Ok img ->
  isPluginFile img = false ->
  Install env sifPath name s
  = (Some NotAPlugin,
     logged s [Entry DebugLevel "Installing plugin from SIF to %q"
                     [AString (path_string (rootDir env))]]).
Proof.
  intros Hload Hplug. unfold Install. run.
  rewrite Hload. unfold newSifFileImageReader. rewrite Hplug. reflexivity.
Qed.

Lemma Install_not_a_plugin_witness :
  fst (Install sample_env "ubuntu.sif" "ubuntu" sample_state) = Some NotAPlugin
  /\ files (snd (Install sample_env "ubuntu.sif" "ubuntu" sample_state))
     = sample_files.
Proof.
  rewrite (Install_not_a_plugin sample_env "ubuntu.sif" "ubuntu" plain_image
             sample_state); [done | vm_compute; reflexivity | reflexivity].
Defined.

Lemma install_Ok env m s :
  fst (install env m s) = None ->
  exists img fs1 fs2 fs3 fs4 fs5,
    sifFile m = Some img
    /\ MkdirAll (baseDir env m) (files s) = Ok fs1
    /\ WriteFile (imageName env m) (SIF img) fs1 = Ok fs2
    /\ WriteFile (binaryName env m) (Data (object img)) fs2 = Ok fs3
    /\ WriteFile (configName env m) DefaultConfig fs3 = Ok fs4
    /\ WriteFile (metaName env m) (MetaJSON (Name m) true) fs4 = Ok fs5
    /\ snd (install env m s) = State fs5 (log s) (writable s)
    /\ writable s = true.
Proof.
  unfold install. destruct (sifFile m) as [img|]; [|discriminate].
  run. destruct (writable s) eqn:Hw; [|discriminate].
  destruct (MkdirAll _ _) as [fs1|] eqn:E1; run; rewrite ?Hw; [|discriminate].
  destruct (WriteFile (imageName env m) _ fs1) as [fs2|] eqn:E2;
    run; rewrite ?Hw; [|discriminate].
  destruct (WriteFile (binaryName env m) _ fs2) as [fs3|] eqn:E3;
    run; rewrite ?Hw; [|discriminate].
  destruct (WriteFile (configName env m) _ fs3) as [fs4|] eqn:E4;
    run; rewrite ?Hw; [|discriminate].
  destruct (WriteFile (metaName env m) _ fs4) as [fs5|] eqn:E5;
    run; rewrite ?Hw; [|discriminate].
  intros _. by exists img, fs1, fs2, fs3, fs4, fs5.
Qed.

Lemma install_success env m s :
  fst (install env m s) = None ->
  ReadFile (files (snd (install env m s))) (metaName env m)
  = Ok (MetaJSON (Name m) true).
Proof.
  intros (img & fs1 & fs2 & fs3 & fs4 & fs5 & _ & _ & _ & _ & _ & H5 & -> & _)
    %install_Ok.
  by apply WriteFile_read in H5.
Qed.

(** With a plugin image loaded, Install is the install of the record it
    builds, the error wrapped. *)
Lemma Install_run env sifPath name img s :
  LoadContainer (files s) (resolve (cwd env) sifPath) = Ok img ->
  isPluginFile img = true ->
  let s0 := logged s [Entry DebugLevel "Installing plugin from SIF to %q"
                            [AString (path_string (rootDir env))]] in
  let m := {| Name := if decide (name = "")
                      then pluginapi.Name (getManifest img) else name;
              Enabled := true; sifFile := Some img |} in
  Install env sifPath name s
  = (match fst (install env m s0) with
     | Some err => Some (Errorw "could not install plugin: %w" err)
     | None => None
     end, snd (install env m s0)).
Proof.
  intros Hload Hplug s0 m. unfold Install. run. rewrite Hload.
  unfold newSifFileImageReader. rewrite Hplug. cbn [negb]. run.
  subst s0. unfold logged. fold m.
  destruct (install env m _) as [[err|] s1]; reflexivity.
Qed.



(** ** Uninstall, Enable and Disable *)

(** C10: when no record can be loaded for the name, Uninstall, Enable and
    Disable return the error of the lookup (NotFound) and change nothing:
    the file system is the one they started with, and each leaves only
    its debug line at entry. *)
Theorem lookup_failure_no_mutation env name err s :
  loadMetaByName env (files s) name = Err err ->
  err = NotFound name
  /\ Uninstall env name s
     = (Some err,
        logged s [Entry DebugLevel "Uninstalling plugin %q from %q"
                        [AString name; AString (path_string (rootDir env))]])
  /\ Enable env name s
     = (Some err,
        logged s [Entry DebugLevel "Enabling plugin %q in %q"
                        [AString name; AString (path_string (rootDir env))]])
  /\ Disable env name s
     = (Some err,
        logged s [Entry DebugLevel "Disabling plugin %q in %q"
                        [AString name; AString (path_string (rootDir env))]]).
Proof.
  intros Hload. split; [by eapply loadMetaByName_Err|].
  unfold Uninstall, Enable, Disable. run. rewrite Hload. done.
Qed.

Lemma lookup_failure_no_mutation_witness :
  fst (Uninstall sample_env "ghost" sample_state) = Some (NotFound "ghost")
  /\ files (snd (Uninstall sample_env "ghost" sample_state)) = sample_files
  /\ files (snd (Enable sample_env "ghost" sample_state)) = sample_files
  /\ files (snd (Disable sample_env "ghost" sample_state)) = sample_files.
Proof.
  destruct (lookup_failure_no_mutation sample_env "ghost" (NotFound "ghost")
              sample_state) as (_ & -> & -> & ->);
    [vm_compute; reflexivity | done].
Defined.

(** C5: for a plugin whose record loads, Enable on an enabled record and
    Disable on a disabled one return nil, write one informational line
    after their two debug lines, and leave the file system as it was: the
    flag is not flipped and the metadata file is not written. *)
Theorem already_in_requested_state env name meta s :
  loadMetaByName env (files s) name = Ok meta ->
  (Enabled meta = true ->
   Enable env name s
   = (None,
      logged s [Entry DebugLevel "Enabling plugin %q in %q"
                      [AString name; AString (path_string (rootDir env))];
                Entry DebugLevel "Found plugin %q, meta=%#v"
                      [AString name; AMeta meta];
                Entry InfoLevel "Plugin %q is already enabled"
                      [AString name]]))
  /\ (Enabled meta = false ->
      Disable env name s
      = (None,
         logged s [Entry DebugLevel "Disabling plugin %q in %q"
                         [AString name; AString (path_string (rootDir env))];
                   Entry DebugLevel "Found plugin %q, meta=%#v"
                         [AString name; AMeta meta];
                   Entry InfoLevel "Plugin %q is already disabled"
                         [AString name]])).
Proof.
  intros Hload.
  split; intros Hflag; unfold Enable, Disable, logged; run;
    rewrite Hload, Hflag; cbn [negb]; run; by rewrite <- ?app_assoc.
Qed.

Lemma already_in_requested_state_witness :
  (fst (Enable sample_env "log" installed_state) = None
   /\ files (snd (Enable sample_env "log" installed_state)) = files installed_state)
  /\ (fst (Disable sample_env "log" disabled_state) = None
      /\ files (snd (Disable sample_env "log" disabled_state)) = files disabled_state)
  /\ fst (Enable sample_env "log" readonly_state) = None.
Proof.
  assert (Hon : loadMetaByName sample_env (files installed_state) "log"
                = Ok (record "log" true)) by (vm_compute; reflexivity).
  assert (Hoff : loadMetaByName sample_env (files disabled_state) "log"
                 = Ok (record "log" false)) by (vm_compute; reflexivity).
  destruct (already_in_requested_state _ _ _ _ Hon) as [He _].
  destruct (already_in_requested_state _ _ _ _ Hoff) as [_ Hd].
  destruct (already_in_requested_state sample_env "log" (record "log" true)
              readonly_state Hon) as [Hr _].
  rewrite (He eq_refl), (Hd eq_refl), (Hr eq_refl). cbn [fst snd files logged].
  repeat split; reflexivity.
Defined.

(** A plugin is installed under a name when the record that resolves for
    the name carries that name. *)
Lemma installed_file env fs name enabled :
  loadMetaByName env fs name = Ok (record name enabled) ->
  namei fs (metaName env (record name enabled))
  = inl (IsFile (MetaJSON name enabled)).
Proof.
  unfold loadMetaByName. intros H.
  destruct (loadMetaByFilename _ _) as [m|] eqn:E; [|discriminate].
  injection H as ->. by apply loadMetaByFilename_Ok in E as [E _].
Qed.

Lemma file_installed env fs name enabled :
  namei fs (metaName env (record name enabled))
  = inl (IsFile (MetaJSON name enabled)) ->
  loadMetaByName env fs name = Ok (record name enabled).
Proof.
  intros H. unfold loadMetaByName.
  by rewrite (loadMetaByFilename_file _ _ name enabled).
Qed.

(** What Enable and Disable do to an installed plugin, with write
    access. *)
Lemma Enable_installed env name enabled s :
  writable s = true ->
  loadMetaByName env (files s) name = Ok (record name enabled) ->
  fst (Enable env name s) = None
  /\ files (snd (Enable env name s))
     = (if enabled then files s
        else <[metaName env (record name enabled) := Regular (MetaJSON name true)]>
               (files s))
  /\ loadMetaByName env (files (snd (Enable env name s))) name
     = Ok (record name true)
  /\ writable (snd (Enable env name s)) = true.
Proof.
  intros Hw Hload. pose proof (installed_file _ _ _ _ Hload) as Hfile.
  unfold Enable. run. rewrite Hload.
  destruct enabled; cbn [Enabled record]; run; [done|].
  unfold enable. run. cbn [Name record].
  rewrite Hw, (WriteFile_over _ _ _ _ Hfile). cbn [fst snd files writable].
  split; [done|]. split; [done|]. split; [|done]. apply file_installed.
  apply namei_inl in Hfile as [[_ [=]]|(Hp & Hdir & _)].
  by apply namei_insert_file.
Qed.

Lemma Disable_installed env name enabled s :
  writable s = true ->
  loadMetaByName env (files s) name = Ok (record name enabled) ->
  fst (Disable env name s) = None
  /\ files (snd (Disable env name s))
     = (if enabled
        then <[metaName env (record name enabled) := Regular (MetaJSON name false)]>
               (files s)
        else files s)
  /\ loadMetaByName env (files (snd (Disable env name s))) name
     = Ok (record name false)
  /\ writable (snd (Disable env name s)) = true.
Proof.
  intros Hw Hload. pose proof (installed_file _ _ _ _ Hload) as Hfile.
  unfold Disable. run. rewrite Hload.
  destruct enabled; cbn [Enabled record negb]; run; [|done].
  unfold disable. run. cbn [Name record].
  rewrite Hw, (WriteFile_over _ _ _ _ Hfile). cbn [fst snd files writable].
  split; [done|]. split; [done|]. split; [|done]. apply file_installed.
  apply namei_inl in Hfile as [[_ [=]]|(Hp & Hdir & _)].
  by apply namei_insert_file.
Qed.

Lemma installed_lookup env fs name enabled :
  loadMetaByName env fs name = Ok (record name enabled) ->
  fs !! metaName env (record name enabled) = Some (Regular (MetaJSON name enabled)).
Proof.
  intros H%installed_file. by apply namei_inl in H as [[_ [=]]|(_ & _ & ?)].
Qed.

(** C9: for an installed plugin, whatever its flag, and with write
    access, Disable then Enable both succeed and leave it enabled, and
    Enable then Disable both succeed and leave it disabled; on a plugin
    that was enabled the first pair gives back the file system it started
    from, and so does the second pair on a plugin that was disabled. *)
Theorem Enable_Disable_inverse env name enabled s :
  writable s = true ->
  loadMetaByName env (files s) name = Ok (record name enabled) ->
  let s1 := snd (Disable env name s) in
  let s2 := snd (Enable env name s1) in
  let t1 := snd (Enable env name s) in
  let t2 := snd (Disable env name t1) in
  (fst (Disable env name s) = None /\ fst (Enable env name s1) = None
   /\ loadMetaByName env (files s2) name = Ok (record name true)
   /\ (enabled = true -> files s2 = files s))
  /\ (fst (Enable env name s) = None /\ fst (Disable env name t1) = None
      /\ loadMetaByName env (files t2) name = Ok (record name false)
      /\ (enabled = false -> files t2 = files s)).
Proof.
  intros Hw Hload s1 s2 t1 t2.
  destruct (Disable_installed _ _ _ _ Hw Hload) as (Hd & Hdf & Hdl & Hdw).
  destruct (Enable_installed _ _ _ _ Hw Hload) as (He & Hef & Hel & Hew).
  destruct (Enable_installed _ _ _ _ Hdw Hdl) as (Hde & Hdef & Hdel & _).
  destruct (Disable_installed _ _ _ _ Hew Hel) as (Hed & Hedf & Hedl & _).
  pose proof (installed_lookup _ _ _ _ Hload) as Hlook.
  split; repeat split; try assumption.
  - intros ->. subst s2 s1. rewrite Hdef, Hdf.
    rewrite insert_insert_eq. by apply insert_id.
  - intros ->. subst t2 t1. rewrite Hedf, Hef.
    rewrite insert_insert_eq. by apply insert_id.
Qed.

Lemma Enable_Disable_inverse_witness :
  loadMetaByName sample_env
    (files (snd (Enable sample_env "log"
                   (snd (Disable sample_env "log" installed_state))))) "log"
  = Ok (record "log" true)
  /\ files (snd (Enable sample_env "log"
                   (snd (Disable sample_env "log" installed_state))))
     = files installed_state
  /\ loadMetaByName sample_env
       (files (snd (Disable sample_env "log"
                      (snd (Enable sample_env "log" installed_state))))) "log"
     = Ok (record "log" false).
Proof.
  destruct (Enable_Disable_inverse sample_env "log" true installed_state)
    as ((_ & _ & Hon & Hsame) & (_ & _ & Hoff & _));
    [reflexivity | vm_compute; reflexivity |].
  split; [exact Hon|]. split; [exact (Hsame eq_refl) | exact Hoff].
Defined.

(** ** Inspect *)

Lemma Inspect_there env name fi s :
  Stat (files s) (resolve (cwd env) name) = Ok fi ->
  Inspect env name s
  = Inspect_load zeroManifest (files s) (resolve (cwd env) name) s.
Proof. intros Hstat. unfold Inspect. run. by rewrite Hstat. Qed.

Lemma Inspect_by_name env name err s :
  Stat (files s) (resolve (cwd env) name) = Err err -> IsNotExist err = true ->
  Inspect env name s
  = match loadMetaByName env (files s) name with
    | Ok meta => Inspect_load zeroManifest (files s) (Some (imageName env meta)) s
    | Err err' => ((zeroManifest, Some err'), s)
    end.
Proof.
  intros Hstat Hne. unfold Inspect. run. rewrite Hstat, Hne.
  by destruct (loadMetaByName env (files s) name).
Qed.

Lemma Inspect_other env name err s :
  Stat (files s) (resolve (cwd env) name) = Err err -> IsNotExist err = false ->
  Inspect env name s = ((zeroManifest, Some err), s).
Proof. intros Hstat Hother. unfold Inspect. run. by rewrite Hstat, Hother. Qed.

Lemma Inspect_load_image fs target img s :
  LoadContainer fs target = Ok img ->
  Inspect_load zeroManifest fs target s
  = (if isPluginFile img then (getManifest img, None)
     else (zeroManifest, Some NotAPlugin), s).
Proof.
  intros Hopen. unfold Inspect_load. rewrite Hopen.
  unfold newSifFileImageReader. by destruct (isPluginFile img).
Qed.

(** C2: Inspect first stats the name. When the name is a file that is
    there, it goes on with that file itself, the registry not being
    asked. When stat reports that the file does not exist, the name is
    looked up as an installed plugin: Inspect goes on with the image copy
    of the record found, and returns NotFound when none resolves. When
    stat fails in any other way, Inspect returns that error, the registry
    not being asked. *)
Theorem Inspect_resolution_order env name s :
  let fs := files s in
  let target := resolve (cwd env) name in
  (forall fi, Stat fs target = Ok fi ->
     Inspect env name s = Inspect_load zeroManifest fs target s)
  /\ (forall err, Stat fs target = Err err -> IsNotExist err = true ->
        (forall meta, loadMetaByName env fs name = Ok meta ->
           Inspect env name s
           = Inspect_load zeroManifest fs (Some (imageName env meta)) s)
        /\ (forall err', loadMetaByName env fs name = Err err' ->
              Inspect env name s = ((zeroManifest, Some (NotFound name)), s)))
  /\ (forall err, Stat fs target = Err err -> IsNotExist err = false ->
        Inspect env name s = ((zeroManifest, Some err), s)).
Proof.
  intros fs target. subst fs target. split; [|split].
  - intros fi. apply Inspect_there.
  - intros err Hstat Hne.
    rewrite (Inspect_by_name _ _ _ _ Hstat Hne).
    split; [by intros meta -> |].
    intros err' Hload. rewrite Hload.
    by rewrite (loadMetaByName_Err _ _ _ _ Hload).
  - intros err. apply Inspect_other.
Qed.

(** C7: when the file Inspect settles on (the name itself when it is
    there, the image copy of the installed plugin when the name does not
    exist) opens as a container image, Inspect returns the manifest the
    image embeds and nil if the image is a plugin, and the zero manifest
    and the "not a valid plugin" error if it is not. *)
Theorem Inspect_validates env name target img s :
  (target = resolve (cwd env) name
   /\ exists fi, Stat (files s) target = Ok fi)
  \/ (exists err meta,
        Stat (files s) (resolve (cwd env) name) = Err err
        /\ IsNotExist err = true
        /\ loadMetaByName env (files s) name = Ok meta
        /\ target = Some (imageName env meta)) ->
  LoadContainer (files s) target = Ok img ->
  Inspect env name s
  = (if isPluginFile img then (getManifest img, None)
     else (zeroManifest, Some NotAPlugin), s).
Proof.
  intros Hsettle Hopen.
  rewrite <- (Inspect_load_image _ _ _ s Hopen).
  destruct Hsettle as [[-> [fi Hstat]]|(err & meta & Hstat & Hne & Hmeta & ->)].
  - by apply Inspect_there with fi.
  - by rewrite (Inspect_by_name _ _ _ _ Hstat Hne), Hmeta.
Qed.

Lemma Inspect_resolution_order_witness :
  fst (Inspect sample_env "log.sif" installed_state)
  = ({| pluginapi.Name := "examples/log" |}, None)
  /\ fst (Inspect sample_env "log" installed_state)
     = ({| pluginapi.Name := "examples/log" |}, None)
  /\ fst (Inspect sample_env "nonexistent-name" installed_state)
     = (zeroManifest, Some (NotFound "nonexistent-name"))
  /\ fst (Inspect sample_env "secret" installed_state)
     = (zeroManifest, Some (PathError "stat" EACCES)).
Proof.
  pose proof (Inspect_resolution_order sample_env "log.sif" installed_state) as H1.
  pose proof (Inspect_resolution_order sample_env "log" installed_state) as H2.
  pose proof (Inspect_resolution_order sample_env "nonexistent-name"
                installed_state) as H3.
  pose proof (Inspect_resolution_order sample_env "secret" installed_state) as H4.
  cbv zeta in H1, H2, H3, H4.
  destruct H1 as (H1 & _ & _). destruct H2 as (_ & H2 & _).
  destruct H3 as (_ & H3 & _). destruct H4 as (_ & _ & H4).
  rewrite (H1 ModeRegular) by (vm_compute; reflexivity).
  destruct (H2 (PathError "stat" ENOENT)) as [H2' _];
    [vm_compute; reflexivity | reflexivity |].
  rewrite (H2' (record "log" true)) by (vm_compute; reflexivity).
  destruct (H3 (PathError "stat" ENOENT)) as [_ H3'];
    [vm_compute; reflexivity | reflexivity |].
  rewrite (H3' (NotFound "nonexistent-name")) by (vm_compute; reflexivity).
  rewrite (H4 (PathError "stat" EACCES)) by (vm_compute; reflexivity).
  repeat split; vm_compute; reflexivity.
Defined.

Lemma Inspect_validates_witness :
  fst (Inspect sample_env "log" installed_state)
  = ({| pluginapi.Name := "examples/log" |}, None)
  /\ fst (Inspect sample_env "ubuntu.sif" installed_state)
     = (zeroManifest, Some NotAPlugin).
Proof.
  rewrite (Inspect_validates sample_env "log"
             (Some (imageName sample_env (record "log" true))) sample_image
             installed_state).
  - rewrite (Inspect_validates sample_env "ubuntu.sif"
               (resolve (cwd sample_env) "ubuntu.sif") plain_image installed_state).
    + split; reflexivity.
    + left. split; [reflexivity|]. exists ModeRegular. vm_compute. reflexivity.
    + vm_compute. reflexivity.
  - right. exists (PathError "stat" ENOENT), (record "log" true).
    repeat split; vm_compute; reflexivity.
  - vm_compute. reflexivity.
Defined.

(** ** List *)

Lemma List_loop_scan entries metas s :
  List_loop entries metas s
  = (metas ++ omap (recorded (files s)) entries,
     logged s (flat_map (skip_note (files s)) entries)).
Proof.
  unfold logged.
  revert metas s. induction entries as [|p entries IH]; intros metas s.
  - simpl. run. rewrite !app_nil_r. by destruct s.
  - cbn [List_loop omap list_omap flat_map]. run.
    unfold recorded, skip_note.
    destruct (Stat (files s) (Some p)) as [[|]|err]; run; cbn [IsRegular negb].
    + destruct (loadMetaByFilename (files s) p) as [meta|err]; run;
        rewrite IH; cbn [files log writable]; by rewrite <- ?app_assoc.
    + rewrite IH. done.
    + rewrite IH. cbn [files log writable]. by rewrite <- ?app_assoc.
Qed.

Lemma List_run env s entries :
  Glob (files s) (Join (rootDir env) "*.meta") = Ok entries ->
  List env s
  = ((omap (recorded (files s)) entries, None),
     logged s (flat_map (skip_note (files s)) entries)).
Proof.
  intros Hglob. unfold List. run. rewrite Hglob.
  run. rewrite List_loop_scan. done.
Qed.

(** C4: the scan of List goes through every candidate entry, whatever
    the entries before it were: an entry that stat fails on, that is not
    a regular file or that does not parse adds no record (and at most one
    debug line); the records of all the other entries are returned, in
    the order of the entries, with a nil error, and the file system is
    not touched. *)
Theorem List_skips_bad_entries env s :
  (forall p, recorded (files s) p = None <->
     (exists err, Stat (files s) (Some p) = Err err)
     \/ Stat (files s) (Some p) = Ok ModeDir
     \/ (exists err, loadMetaByFilename (files s) p = Err err))
  /\ (forall entries metas,
        List_loop entries metas s
        = (metas ++ omap (recorded (files s)) entries,
           logged s (flat_map (skip_note (files s)) entries)))
  /\ (forall entries,
        Glob (files s) (Join (rootDir env) "*.meta") = Ok entries ->
        List env s
        = ((omap (recorded (files s)) entries, None),
           logged s (flat_map (skip_note (files s)) entries))).
Proof.
  split; [|split].
  - intros p. unfold recorded.
    destruct (Stat (files s) (Some p)) as [[|]|err];
      [destruct (loadMetaByFilename (files s) p) as [meta|err]|..];
      split; eauto; try done;
      intros [[? [=]]|[[=]|[? [=]]]].
  - intros. apply List_loop_scan.
  - apply List_run.
Qed.

Lemma List_skips_bad_entries_witness :
  fst (List sample_env cluttered_state) = ([record "log" true], None)
  /\ files (snd (List sample_env cluttered_state)) = files cluttered_state.
Proof.
  destruct (List_skips_bad_entries sample_env cluttered_state) as (_ & _ & Hlist).
  rewrite (Hlist (map (fun b => rootDir sample_env ++ [b])
                      ["bad.meta"; "dir.meta"; "log.meta"; "loop.meta"]))
    by (vm_compute; reflexivity).
  cbn [fst snd files]. split; [vm_compute; reflexivity | reflexivity].
Defined.

(** ** Names, components and the pattern of List *)

Lemma no_slash_cons c s :
  no_slash (String c s) <-> c <> "/"%char /\ no_slash s.
Proof.
  unfold no_slash. simpl. rewrite not_elem_of_cons.
  split; intros [? ?]; split; auto.
Qed.

Lemma no_slash_app s t : no_slash s -> no_slash t -> no_slash (s +:+ t).
Proof.
  intros Hs Ht. induction s as [|c s IH]; [done|].
  apply no_slash_cons in Hs as [Hc Hs]. simpl.
  apply no_slash_cons. auto.
Qed.

Lemma split_slash_plain s : no_slash s -> split_slash s = [s].
Proof.
  induction s as [|c s IH]; [done|].
  intros [Hc Hs]%no_slash_cons. simpl.
  rewrite decide_False by done. by rewrite IH.
Qed.

Lemma length_append s t :
  String.length (s +:+ t) = String.length s + String.length t.
Proof. induction s as [|c s IH]; simpl; [done|]. by rewrite IH. Qed.

Lemma no_slash_empty : no_slash "".
Proof. unfold no_slash. simpl. apply not_elem_of_nil. Qed.

Lemma no_slash_dot_meta : no_slash ".meta".
Proof.
  unfold no_slash. simpl. rewrite !not_elem_of_cons.
  repeat split; (discriminate || apply not_elem_of_nil).
Qed.

(** The metadata file of a name without separator lies directly under
    the directory it is joined to. *)
Lemma Join_meta dir c :
  no_slash c -> Join dir (c +:+ ".meta") = dir ++ [c +:+ ".meta"].
Proof.
  intros Hc. unfold Join. rewrite split_slash_plain.
  - assert (Hlen : 5 <= String.length (c +:+ ".meta"))
      by (rewrite length_append; simpl; lia).
    simpl. unfold clean_step.
    rewrite decide_False by (intros [E|E]; rewrite E in Hlen; simpl in Hlen; lia).
    rewrite decide_False by (intros E; rewrite E in Hlen; simpl in Hlen; lia).
    reflexivity.
  - apply no_slash_app; [done|]. apply no_slash_dot_meta.
Qed.

Lemma Match_star pattern name :
  Match (String "*" pattern) name
  = Match pattern name
    || match name with
       | EmptyString => false
       | String c name' =>
           if decide (c = "/"%char) then false else Match (String "*" pattern) name'
       end.
Proof. destruct name; reflexivity. Qed.

(** A pattern without '*' matches itself and nothing else. *)
Lemma Match_literal lit name :
  "*"%char ∉ String.list_ascii_of_string lit ->
  Match lit name = true <-> name = lit.
Proof.
  revert name. induction lit as [|p lit IH]; intros name Hlit; simpl.
  - apply bool_decide_eq_true.
  - simpl in Hlit. apply not_elem_of_cons in Hlit as [Hp Hlit].
    rewrite decide_False by congruence.
    destruct name as [|c name]; [done|].
    rewrite andb_true_iff, bool_decide_eq_true, (IH name Hlit).
    split; [intros [-> ->]; reflexivity | intros [= -> ->]; done].
Qed.

Lemma Match_dot_meta name : Match ".meta" name = true <-> name = ".meta".
Proof.
  apply Match_literal. simpl. rewrite !not_elem_of_cons.
  repeat split; (discriminate || apply not_elem_of_nil).
Qed.

Lemma Match_meta_inv name :
  Match "*.meta" name = true ->
  exists c, name = c +:+ ".meta" /\ no_slash c.
Proof.
  induction name as [|ch name IH]; rewrite Match_star.
  - rewrite orb_false_r. intros H%Match_dot_meta. discriminate.
  - intros [H%Match_dot_meta|H]%orb_true_iff.
    + exists "". split; [done | apply no_slash_empty].
    + case_decide; [discriminate|].
      destruct (IH H) as (c & -> & Hc).
      exists (String ch c). split; [done|]. by apply no_slash_cons.
Qed.

Lemma Match_meta c : no_slash c -> Match "*.meta" (c +:+ ".meta") = true.
Proof.
  induction c as [|ch c IH]; [reflexivity|].
  intros [Hch Hc]%no_slash_cons.
  change (String ch c +:+ ".meta") with (String ch (c +:+ ".meta")).
  rewrite Match_star. rewrite decide_False by done.
  rewrite IH by done. apply orb_true_r.
Qed.

(** ** Directory listings *)

Lemma child_name_Some dir k n : child_name dir k = Some n <-> k = dir ++ [n].
Proof.
  unfold child_name. split.
  - destruct (last k) as [b|]; [|discriminate].
    case_decide; [|discriminate]. by intros [= <-].
  - intros ->. rewrite last_snoc. by rewrite decide_True.
Qed.

Lemma elem_of_Readdirnames fs dir n :
  n ∈ Readdirnames fs dir <-> is_Some (fs !! (dir ++ [n])).
Proof.
  unfold Readdirnames. rewrite merge_sort_Permutation, list_elem_of_omap.
  split.
  - intros (k & Hk & ->%child_name_Some).
    by apply elem_of_elements, elem_of_dom in Hk.
  - intros Hn. exists (dir ++ [n]). split.
    + by apply elem_of_elements, elem_of_dom.
    + by apply child_name_Some.
Qed.



(** The pattern of List splits into the registry root and "*.meta". *)
Lemma Glob_meta env fs :
  existsb hasMeta (rootDir env) = false ->
  Glob fs (Join (rootDir env) "*.meta") = Ok (glob fs (rootDir env) "*.meta").
Proof.
  intros Hplain.
  assert (Hstar : no_slash "*").
  { unfold no_slash. simpl. rewrite not_elem_of_cons.
    split; [discriminate | apply not_elem_of_nil]. }
  change "*.meta" with ("*" +:+ ".meta") at 1.
  rewrite (Join_meta _ _ Hstar). unfold Glob.
  rewrite existsb_app, Hplain. cbn [existsb orb negb].
  change (hasMeta ("*" +:+ ".meta")) with true. cbn [orb negb].
  rewrite last_snoc, removelast_last, Hplain. reflexivity.
Qed.

(** The entries that List gets for a registry root that is a directory:
    the names under it that end in ".meta", each below the root. *)
Lemma glob_meta fs dir :
  namei fs dir = inl IsDir ->
  glob fs dir "*.meta"
  = map (fun n => dir ++ [n])
        (List.filter (Match "*.meta") (Readdirnames fs dir)).
Proof.
  intros Hdir. unfold glob, Stat. rewrite Hdir.
  apply map_ext_in. intros n [_ Hn]%List.filter_In.
  apply Match_meta_inv in Hn as (c & -> & Hc). by apply Join_meta.
Qed.

(** What List reads from an entry directly under a directory. *)
Lemma recorded_child fs dir n :
  namei fs dir = inl IsDir ->
  recorded fs (dir ++ [n])
  = match fs !! (dir ++ [n]) with
    | Some (Regular (MetaJSON name enabled)) => Some (record name enabled)
    | _ => None
    end.
Proof.
  intros Hdir. unfold recorded, Stat, loadMetaByFilename, ReadFile.
  rewrite namei_snoc, Hdir. unfold enter.
  destruct (fs !! (dir ++ [n])) as [[[]| |]|]; reflexivity.
Qed.

(** ** The steps of install *)




(** ** Install followed by List *)

Lemma elem_of_bool_filter {A} (f : A -> bool) (l : list A) x :
  x ∈ List.filter f l <-> x ∈ l /\ f x = true.
Proof. rewrite !list_elem_of_In. apply List.filter_In. Qed.




Lemma omap_map {A B C} (f : B -> option C) (g : A -> B) (l : list A) :
  omap f (map g l) = omap (fun x => f (g x)) l.
Proof.
  induction l as [|a l IH]; [done|].
  change (omap f (map g (a :: l)))
    with (match f (g a) with
          | Some y => y :: omap f (map g l)
          | None => omap f (map g l)
          end).
  rewrite IH. reflexivity.
Qed.



Lemma no_slash_log : no_slash "log".
Proof.
  unfold no_slash. simpl. rewrite !not_elem_of_cons.
  repeat split; (discriminate || apply not_elem_of_nil).
Qed.



(** * Further properties of the operations *)

(** ** The errors of Install *)

(** X1: an error of Install is one of three: the wrapped error of the
    image that did not load, the "not a valid plugin" error, or the
    wrapped error of the record's install. In the first two cases nothing
    was written. Since every one of them is made by fmt.Errorf,
    os.IsNotExist is false of all of them, also when the image file is
    missing. *)
Theorem Install_errors env sifPath name err s :
  fst (Install env sifPath name s) = Some err ->
  IsNotExist err = false
  /\ ((exists cause,
         LoadContainer (files s) (resolve (cwd env) sifPath) = Err cause
         /\ err = Errorw "could not load plugin: %w" cause
         /\ files (snd (Install env sifPath name s)) = files s)
      \/ (exists img,
            LoadContainer (files s) (resolve (cwd env) sifPath) = Ok img
            /\ isPluginFile img = false
            /\ err = Errorf "not a valid plugin" []
            /\ files (snd (Install env sifPath name s)) = files s)
      \/ (exists img cause,
            LoadContainer (files s) (resolve (cwd env) sifPath) = Ok img
            /\ isPluginFile img = true
            /\ err = Errorw "could not install plugin: %w" cause)).
Proof.
  unfold Install. run.
  destruct (LoadContainer (files s) (resolve (cwd env) sifPath))
    as [img|cause] eqn:Hload.
  - unfold newSifFileImageReader.
    destruct (isPluginFile img) eqn:Hplug; cbn [negb]; run.
    + destruct (install env _ _) as [[cause|] s1]; cbn [fst snd];
        intros [= <-]. split; [reflexivity|]. right; right. by exists img, cause.
    + intros [= <-]. split; [reflexivity|]. right; left. by exists img.
  - intros [= <-]. split; [reflexivity|]. left. by exists cause.
Qed.

Lemma Install_errors_witness :
  fst (Install sample_env "nowhere.sif" "log" sample_state)
  = Some (Errorw "could not load plugin: %w" (SifError (Some ENOENT)))
  /\ files (snd (Install sample_env "nowhere.sif" "log" sample_state))
     = sample_files.
Proof.
  assert (Herr : fst (Install sample_env "nowhere.sif" "log" sample_state)
                 = Some (Errorw "could not load plugin: %w"
                           (SifError (Some ENOENT))))
    by (vm_compute; reflexivity).
  split; [exact Herr|].
  destruct (Install_errors _ _ _ _ _ Herr)
    as (_ & [(c & _ & _ & Hfs)|[(i & Hl & _)|(i & c & Hl & _)]]).
  - exact Hfs.
  - vm_compute in Hl. discriminate Hl.
  - vm_compute in Hl. discriminate Hl.
Defined.

(** ** Inspect *)

(** X2: Inspect only reads: whatever the name and whatever it returns,
    the state after it is the state before it; not even the log has a
    new line. *)
Theorem Inspect_read_only env name s :
  snd (Inspect env name s) = s.
Proof.
  unfold Inspect, Inspect_load. run.
  destruct (Stat (files s) (resolve (cwd env) name)) as [fi|err].
  - destruct (LoadContainer _ _) as [img|e]; [|reflexivity].
    by destruct (negb _).
  - destruct (IsNotExist err); [|reflexivity].
    destruct (loadMetaByName env (files s) name) as [meta|e]; [|reflexivity].
    destruct (LoadContainer _ _) as [img|e]; [|reflexivity].
    by destruct (negb _).
Qed.

(** X3: Inspect returns either an error together with the zero manifest,
    or nil together with the manifest embedded in an image that loaded
    and passed the plugin check; that image is the file of the given name
    when stat finds it, and the image copy of the plugin of that name
    otherwise. *)
Theorem Inspect_outcome env name s :
  match fst (Inspect env name s) with
  | (manifest, Some err) => manifest = zeroManifest
  | (manifest, None) =>
      exists target img,
        LoadContainer (files s) target = Ok img
        /\ isPluginFile img = true
        /\ manifest = getManifest img
        /\ ((exists fi, Stat (files s) (resolve (cwd env) name) = Ok fi)
              /\ target = resolve (cwd env) name
            \/ (exists meta,
                  Stat (files s) (resolve (cwd env) name)
                  = Err (PathError "stat" ENOENT)
                  /\ loadMetaByName env (files s) name = Ok meta
                  /\ target = Some (imageName env meta)))
  end.
Proof.
  unfold Inspect, Inspect_load. run.
  destruct (Stat (files s) (resolve (cwd env) name)) as [fi|err] eqn:Hstat.
  - destruct (LoadContainer _ _) as [img|e] eqn:Hload; [|reflexivity].
    unfold newSifFileImageReader.
    destruct (isPluginFile img) eqn:Hplug; [|reflexivity].
    exists (resolve (cwd env) name), img. repeat split; try done.
    left. split; [by exists fi | done].
  - destruct (IsNotExist err) eqn:Hne; [|reflexivity].
    destruct (loadMetaByName env (files s) name) as [meta|e] eqn:Hmeta;
      [|reflexivity].
    destruct (LoadContainer _ _) as [img|e] eqn:Hload; [|reflexivity].
    unfold newSifFileImageReader.
    destruct (isPluginFile img) eqn:Hplug; [|reflexivity].
    exists (Some (imageName env meta)), img. repeat split; try done.
    right. exists meta. repeat split; try done.
    unfold Stat in Hstat.
    destruct (resolve (cwd env) name) as [p|].
    + destruct (namei (files s) p) as [[?|]|e]; try discriminate.
      injection Hstat as <-. by destruct e.
    + by injection Hstat as <-.
Qed.

(** ** List *)

Lemma skip_note_debug fs p : Forall (fun e => lvl e = DebugLevel) (skip_note fs p).
Proof.
  unfold skip_note.
  destruct (Stat fs (Some p)) as [[|]|err];
    [destruct (loadMetaByFilename fs p)|..]; repeat constructor.
Qed.



(** X4: with a registry root that holds no pattern character, List never
    fails, whatever is or is not on disk: it returns nil, and the state
    after it differs from the state before it by debug lines only; the
    file system is the same. *)
Theorem List_never_fails env s :
  existsb hasMeta (rootDir env) = false ->
  exists metas lines,
    List env s = ((metas, None), logged s lines)
    /\ Forall (fun e => lvl e = DebugLevel) lines
    /\ files (snd (List env s)) = files s.
Proof.
  intros Hplain.
  rewrite (List_run env s (glob (files s) (rootDir env) "*.meta"))
    by by apply Glob_meta.
  eexists _, _. split; [reflexivity|]. split; [|reflexivity].
  induction (glob (files s) (rootDir env) "*.meta") as [|p l IH]; simpl.
  - constructor.
  - apply Forall_app. split; [apply skip_note_debug | exact IH].
Qed.

Lemma List_never_fails_witness :
  exists metas lines,
    List sample_env cluttered_state = ((metas, None), logged cluttered_state lines)
    /\ Forall (fun e => lvl e = DebugLevel) lines
    /\ files (snd (List sample_env cluttered_state)) = files cluttered_state.
Proof.
  apply (List_never_fails sample_env cluttered_state).
  vm_compute. reflexivity.
Defined.





(** ** The helpers for names *)

Lemma lower_hex_plain (s : string) :
  Forall (fun c => is_lower_hex c = true) (String.list_ascii_of_string s) ->
  no_slash s /\ hasMeta s = false.
Proof.
  induction s as [|c s IH]; simpl.
  - intros _. split; [apply no_slash_empty | reflexivity].
  - intros [Hc Hs]%Forall_cons. destruct (IH Hs) as [IH1 IH2].
    unfold is_lower_hex in Hc. apply bool_decide_eq_true in Hc.
    split.
    + apply no_slash_cons. split; [|done].
      intros ->. vm_compute in Hc.
      repeat (apply elem_of_cons in Hc as [Hc|Hc]; [discriminate|]).
      by apply elem_of_nil in Hc.
    + unfold hasMeta in *. simpl. rewrite IH2, orb_false_r.
      apply bool_decide_eq_false. intros Hmeta.
      unfold ldigits in Hc. simpl in Hc.
      repeat (apply elem_of_cons in Hc as [->|Hc];
              [repeat (apply elem_of_cons in Hmeta as [Hmeta|Hmeta];
                       [discriminate|]); by apply elem_of_nil in Hmeta|]).
      by apply elem_of_nil in Hc.
Qed.

(** X7: the identifier of a name, whatever the name holds (separators,
    "..", pattern characters), is one plain path component: it has no
    separator and no pattern character, a file called after it with the
    suffix ".meta" lies directly in the directory it is joined to, and
    the pattern of List matches that file name. *)
Theorem pluginIDFromName_plain_component (name : string) (dir : path) :
  no_slash (pluginIDFromName name)
  /\ hasMeta (pluginIDFromName name) = false
  /\ Join dir (pluginIDFromName name +:+ ".meta")
     = dir ++ [pluginIDFromName name +:+ ".meta"]
  /\ Match "*.meta" (pluginIDFromName name +:+ ".meta") = true.
Proof.
  destruct (lower_hex_plain (pluginIDFromName name)) as [Hns Hplain].
  { unfold pluginIDFromName. apply Sprintf_x_lower. }
  repeat split; [done | done | by apply Join_meta | by apply Match_meta].
Qed.

(** Without ".." among the components, cleaning keeps what is there and
    adds the components that are neither empty nor ".". *)
Lemma clean_without_dotdot (segs : list string) (stack : path) :
  ".." ∉ segs ->
  foldl clean_step stack segs
  = stack ++ List.filter (fun seg => negb (bool_decide (seg = "" \/ seg = "."))) segs.
Proof.
  revert stack. induction segs as [|seg segs IH]; intros stack Hdd; simpl.
  - by rewrite app_nil_r.
  - apply not_elem_of_cons in Hdd as [Hseg Hdd].
    rewrite (IH _ Hdd). unfold clean_step.
    destruct (decide (seg = "" \/ seg = ".")) as [Hskip|Hkeep].
    + by rewrite bool_decide_eq_true_2.
    + rewrite bool_decide_eq_false_2 by done. simpl.
      rewrite decide_False by done. by rewrite <- app_assoc.
Qed.

(** X8: pathFromName hands the name on as it is, so where the plugin
    lands is decided by the components of the name alone: as long as no
    component is "..", the path joined to the installation directory is
    that directory followed by the components of the name that are
    neither empty nor ".", hence inside the directory. *)
Theorem pathFromName_stays_inside (dir : path) (name : string) :
  ".." ∉ split_slash name ->
  Join dir (pathFromName name)
  = dir ++ List.filter (fun seg => negb (bool_decide (seg = "" \/ seg = ".")))
                       (split_slash name)
  /\ dir `prefix_of` Join dir (pathFromName name).
Proof.
  intros Hdd. unfold Join, pathFromName.
  rewrite (clean_without_dotdot _ _ Hdd). split; [reflexivity|].
  by apply prefix_app_r.
Qed.

Lemma pathFromName_stays_inside_witness :
  Join (rootDir sample_env) (pathFromName "vendor//./log")
  = rootDir sample_env ++ ["vendor"; "log"]
  /\ rootDir sample_env `prefix_of`
       Join (rootDir sample_env) (pathFromName "vendor//./log").
Proof.
  destruct (pathFromName_stays_inside (rootDir sample_env) "vendor//./log")
    as [Hjoin Hin].
  - replace (split_slash "vendor//./log") with ["vendor"; ""; "."; "log"]
      by reflexivity.
    rewrite !not_elem_of_cons.
    repeat split; (discriminate || apply not_elem_of_nil).
  - split; [rewrite Hjoin; reflexivity | exact Hin].
Defined.

(** X9: a component ".." does lead out: a name that starts with "../"
    is joined as the rest of the name to the parent of the installation
    directory; so when the rest is one plain component other than the
    last component of the installation directory, the plugin lands beside
    that directory, not inside it. *)
Theorem pathFromName_dotdot_leaves (dir : path) (d rest : string) :
  Join (dir ++ [d]) (pathFromName ("../" +:+ rest)) = Join dir (pathFromName rest)
  /\ (no_slash rest -> rest <> "" -> rest <> "." -> rest <> ".." -> rest <> d ->
      Join (dir ++ [d]) (pathFromName ("../" +:+ rest)) = dir ++ [rest]
      /\ ~ (dir ++ [d]) `prefix_of`
            Join (dir ++ [d]) (pathFromName ("../" +:+ rest))).
Proof.
  assert (Hup : Join (dir ++ [d]) (pathFromName ("../" +:+ rest))
                = Join dir (pathFromName rest)).
  { unfold Join, pathFromName.
    replace (split_slash ("../" +:+ rest)) with (".." :: split_slash rest)
      by reflexivity.
    change (foldl clean_step (dir ++ [d]) (".." :: split_slash rest))
      with (foldl clean_step (removelast (dir ++ [d])) (split_slash rest)).
    by rewrite removelast_last. }
  split; [exact Hup|].
  intros Hc H0 H1 H2 Hd.
  assert (Hjoin : Join dir (pathFromName rest) = dir ++ [rest]).
  { unfold Join, pathFromName. rewrite (split_slash_plain _ Hc).
    simpl. unfold clean_step.
    rewrite decide_False by (intros [?|?]; done).
    by rewrite decide_False. }
  rewrite Hup, Hjoin. split; [done|]. intros [k Hk].
  rewrite <- app_assoc in Hk. apply app_inv_head in Hk.
  simpl in Hk. by injection Hk as -> _.
Qed.

Lemma pathFromName_dotdot_leaves_witness :
  Join (rootDir sample_env) (pathFromName "../cron.d")
  = ["usr"; "libexec"; "singularity"; "cron.d"]
  /\ ~ rootDir sample_env `prefix_of`
        Join (rootDir sample_env) (pathFromName "../cron.d").
Proof.
  destruct (pathFromName_dotdot_leaves ["usr"; "libexec"; "singularity"]
              "plugin" "cron.d") as [_ Hout].
  apply Hout; try discriminate.
  unfold no_slash. simpl. rewrite !not_elem_of_cons.
  repeat split; (discriminate || apply not_elem_of_nil).
Defined.

(** ** Enable, Disable and Uninstall on a record that loads *)

Lemma Enable_found env name meta s :
  loadMetaByName env (files s) name = Ok meta ->
  Enable env name s
  = let s2 := logged s [Entry DebugLevel "Enabling plugin %q in %q"
                              [AString name; AString (path_string (rootDir env))];
                        Entry DebugLevel "Found plugin %q, meta=%#v"
                              [AString name; AMeta meta]] in
    if Enabled meta
    then (None, logged s2 [Entry InfoLevel "Plugin %q is already enabled"
                                 [AString name]])
    else enable env meta s2.
Proof.
  intros Hload. unfold Enable, logged. run. rewrite Hload. run.
  destruct (Enabled meta); run; by rewrite <- ?app_assoc.
Qed.

Lemma Disable_found env name meta s :
  loadMetaByName env (files s) name = Ok meta ->
  Disable env name s
  = let s2 := logged s [Entry DebugLevel "Disabling plugin %q in %q"
                              [AString name; AString (path_string (rootDir env))];
                        Entry DebugLevel "Found plugin %q, meta=%#v"
                              [AString name; AMeta meta]] in
    if Enabled meta
    then disable env meta s2
    else (None, logged s2 [Entry InfoLevel "Plugin %q is already disabled"
                                 [AString name]]).
Proof.
  intros Hload. unfold Disable, logged. run. rewrite Hload. run.
  destruct (Enabled meta); cbn [negb]; run; by rewrite <- ?app_assoc.
Qed.

Lemma Uninstall_found env name meta s :
  loadMetaByName env (files s) name = Ok meta ->
  Uninstall env name s
  = uninstall env meta
      (logged s [Entry DebugLevel "Uninstalling plugin %q from %q"
                       [AString name; AString (path_string (rootDir env))];
                 Entry DebugLevel "Found plugin %q, meta=%#v"
                       [AString name; AMeta meta]]).
Proof.
  intros Hload. unfold Uninstall, logged. run. rewrite Hload. run.
  by rewrite <- ?app_assoc.
Qed.

(** A step that fails leaves the state; one that works keeps the log. *)
Lemma step_outcome op s :
  (exists err, step op s = (Some err, s))
  \/ (exists fs', op (files s) = Ok fs' /\ writable s = true
                  /\ step op s = (None, State fs' (log s) (writable s))).
Proof.
  unfold step. destruct (writable s); [|left; by eexists].
  destruct (op (files s)) as [fs'|err]; [right | left]; by eexists.
Qed.

Ltac step_cases :=
  match goal with
  | |- context [step ?op ?st] =>
      let err := fresh "err" in
      let fs' := fresh "fs'" in
      let Hop := fresh "Hop" in
      let Hw := fresh "Hw" in
      destruct (step_outcome op st) as [[err ->]|(fs' & Hop & Hw & ->)]
  end.



(** What a toggle that returned nil left behind, for an installed
    plugin. *)
Lemma Enable_nil env name enabled s :
  loadMetaByName env (files s) name = Ok (record name enabled) ->
  fst (Enable env name s) = None ->
  loadMetaByName env (files (snd (Enable env name s))) name
  = Ok (record name true).
Proof.
  intros Hload. rewrite (Enable_found _ _ _ _ Hload). cbv zeta.
  destruct enabled; cbn [Enabled record]; [done|].
  unfold enable. cbn [Name record]. step_cases; [done|].
  intros _. cbn [snd files]. apply file_installed.
  cbn [logged files] in Hop. apply WriteFile_read in Hop.
  unfold ReadFile in Hop.
  by destruct (namei fs' _) as [[?|]|?]; simplify_eq.
Qed.

Lemma Disable_nil env name enabled s :
  loadMetaByName env (files s) name = Ok (record name enabled) ->
  fst (Disable env name s) = None ->
  loadMetaByName env (files (snd (Disable env name s))) name
  = Ok (record name false).
Proof.
  intros Hload. rewrite (Disable_found _ _ _ _ Hload). cbv zeta.
  destruct enabled; cbn [Enabled record]; [|done].
  unfold disable. cbn [Name record]. step_cases; [done|].
  intros _. cbn [snd files]. apply file_installed.
  cbn [logged files] in Hop. apply WriteFile_read in Hop.
  unfold ReadFile in Hop.
  by destruct (namei fs' _) as [[?|]|?]; simplify_eq.
Qed.

(** X11: Enable and Disable are idempotent on an installed plugin: after
    an Enable that returned nil, Enable again returns nil, writes nothing
    and only notes that the plugin is already enabled; the same for
    Disable. *)
Theorem toggle_idempotent env name enabled s :
  loadMetaByName env (files s) name = Ok (record name enabled) ->
  (fst (Enable env name s) = None ->
   let s1 := snd (Enable env name s) in
   fst (Enable env name s1) = None
   /\ files (snd (Enable env name s1)) = files s1
   /\ last (log (snd (Enable env name s1)))
      = Some (Entry InfoLevel "Plugin %q is already enabled" [AString name]))
  /\ (fst (Disable env name s) = None ->
      let s1 := snd (Disable env name s) in
      fst (Disable env name s1) = None
      /\ files (snd (Disable env name s1)) = files s1
      /\ last (log (snd (Disable env name s1)))
         = Some (Entry InfoLevel "Plugin %q is already disabled" [AString name])).
Proof.
  intros Hload. split; intros Hnil s1.
  - pose proof (Enable_nil _ _ _ _ Hload Hnil) as Hon. fold s1 in Hon.
    rewrite (Enable_found _ _ _ _ Hon). cbn [Enabled record logged fst snd files log].
    repeat split. by rewrite last_snoc.
  - pose proof (Disable_nil _ _ _ _ Hload Hnil) as Hoff. fold s1 in Hoff.
    rewrite (Disable_found _ _ _ _ Hoff). cbn [Enabled record logged fst snd files log].
    repeat split. by rewrite last_snoc.
Qed.

Lemma toggle_idempotent_witness :
  fst (Disable sample_env "log" disabled_state) = None
  /\ files (snd (Disable sample_env "log" disabled_state)) = files disabled_state.
Proof.
  destruct (toggle_idempotent sample_env "log" true installed_state) as [_ Hd];
    [vm_compute; reflexivity|].
  destruct Hd as (Hnil & Hfiles & _); [vm_compute; reflexivity|].
  split; [exact Hnil | exact Hfiles].
Defined.

(** ** After Uninstall *)

Lemma lookup_fails env name err s :
  loadMetaByName env (files s) name = Err err ->
  fst (Uninstall env name s) = Some err
  /\ fst (Enable env name s) = Some err
  /\ fst (Disable env name s) = Some err
  /\ files (snd (Uninstall env name s)) = files s.
Proof.
  intros Hload. unfold Uninstall, Enable, Disable. run. by rewrite Hload.
Qed.

Lemma no_file_not_found env fs name :
  fs !! metaName env (record name false) = None ->
  loadMetaByName env fs name = Err (NotFound name).
Proof.
  intros Hnone. unfold loadMetaByName, loadMetaByFilename, ReadFile.
  change {| Name := name; Enabled := false; sifFile := None |}
    with (record name false).
  destruct (namei fs (metaName env (record name false))) as [[c|]|e] eqn:E;
    try reflexivity.
  apply namei_inl in E as [[_ [=]]|(_ & _ & Hsome)]. congruence.
Qed.

Lemma remove_if_there_Ok p fs fs' :
  remove_if_there p fs = Ok fs' -> fs' = fs \/ fs' = delete p fs.
Proof.
  unfold remove_if_there, Remove.
  destruct (namei fs p) as [[c|]|e].
  - intros [= <-]. by right.
  - destruct p as [|x p]; [discriminate|].
    destruct (Readdirnames fs (x :: p)); [|discriminate].
    intros [= <-]. by right.
  - destruct (IsNotExist (PathError "remove" e)); [|discriminate].
    intros [= <-]. by left.
Qed.

Lemma remove_if_there_file p c fs :
  namei fs p = inl (IsFile c) -> remove_if_there p fs = Ok (delete p fs).
Proof. intros H. unfold remove_if_there, Remove. by rewrite H. Qed.

Lemma remove_if_there_None p q fs fs' :
  remove_if_there p fs = Ok fs' -> fs !! q = None -> fs' !! q = None.
Proof.
  intros [->| ->]%remove_if_there_Ok Hq; [done|].
  apply lookup_delete_None. by right.
Qed.

Lemma uninstall_Ok env meta s :
  fst (uninstall env meta s) = None ->
  exists fs1 fs2 fs3,
    remove_if_there (metaName env meta) (files s) = Ok fs1
    /\ remove_if_there (imageName env meta) fs1 = Ok fs2
    /\ remove_if_there (binaryName env meta) fs2 = Ok fs3
    /\ snd (uninstall env meta s) = State fs3 (log s) (writable s).
Proof.
  unfold uninstall. run. destruct (writable s) eqn:Hw; [|discriminate].
  destruct (remove_if_there (metaName env meta) _) as [fs1|] eqn:E1;
    run; rewrite ?Hw; [|discriminate].
  destruct (remove_if_there (imageName env meta) _) as [fs2|] eqn:E2;
    run; rewrite ?Hw; [|discriminate].
  destruct (remove_if_there (binaryName env meta) _) as [fs3|] eqn:E3;
    run; rewrite ?Hw; [|discriminate].
  intros _. by exists fs1, fs2, fs3.
Qed.

(** After an Uninstall of an installed plugin that returned nil, the
    metadata file of the name is not there. *)
Lemma Uninstall_nil env name enabled s :
  loadMetaByName env (files s) name = Ok (record name enabled) ->
  fst (Uninstall env name s) = None ->
  files (snd (Uninstall env name s)) !! metaName env (record name false) = None
  /\ exists fs1 fs2,
       (fs1 = delete (metaName env (record name false)) (files s))
       /\ (fs2 = fs1 \/ fs2 = delete (imageName env (record name false)) fs1)
       /\ (files (snd (Uninstall env name s)) = fs2
           \/ files (snd (Uninstall env name s))
              = delete (binaryName env (record name false)) fs2).
Proof.
  intros Hload. pose proof (installed_file _ _ _ _ Hload) as Hfile.
  rewrite (Uninstall_found _ _ _ _ Hload).
  intros (fs1 & fs2 & fs3 & H1 & H2 & H3 & ->)%uninstall_Ok.
  cbn [files logged] in *.
  change (metaName env (record name enabled))
    with (metaName env (record name false)) in *.
  rewrite (remove_if_there_file _ _ _ Hfile) in H1. injection H1 as <-.
  split.
  - eapply remove_if_there_None; [exact H3|].
    eapply remove_if_there_None; [exact H2|]. apply lookup_delete_eq.
  - eexists _, fs2. split; [reflexivity|].
    split; [by apply remove_if_there_Ok in H2 | by apply remove_if_there_Ok in H3].
Qed.

(** X12: after an Uninstall of an installed plugin that returned nil, the
    name does not resolve any more: Uninstall again, Enable and Disable
    all return NotFound for it, and change nothing. *)
Theorem Uninstall_then_not_found env name enabled s :
  loadMetaByName env (files s) name = Ok (record name enabled) ->
  fst (Uninstall env name s) = None ->
  let s1 := snd (Uninstall env name s) in
  fst (Uninstall env name s1) = Some (NotFound name)
  /\ fst (Enable env name s1) = Some (NotFound name)
  /\ fst (Disable env name s1) = Some (NotFound name)
  /\ files (snd (Uninstall env name s1)) = files s1.
Proof.
  intros Hload Hnil s1.
  destruct (Uninstall_nil _ _ _ _ Hload Hnil) as [Hgone _]. fold s1 in Hgone.
  by apply lookup_fails, no_file_not_found.
Qed.

Lemma Uninstall_then_not_found_witness :
  fst (Uninstall sample_env "log" (snd (Uninstall sample_env "log" installed_state)))
  = Some (NotFound "log")
  /\ fst (Enable sample_env "log" (snd (Uninstall sample_env "log" installed_state)))
     = Some (NotFound "log").
Proof.
  destruct (Uninstall_then_not_found sample_env "log" true installed_state)
    as (Hu & He & _); [vm_compute; reflexivity | vm_compute; reflexivity |].
  split; [exact Hu | exact He].
Defined.

(** ** What List shows of the other operations *)


Lemma installed_listed env name enabled s :
  existsb hasMeta (rootDir env) = false ->
  no_slash name ->
  loadMetaByName env (files s) name = Ok (record name enabled) ->
  record name enabled ∈ fst (fst (List env s)).
Proof.
  intros Hplain Hname Hfile%installed_file.
  assert (Hpm : metaName env (record name enabled)
                = rootDir env ++ [name +:+ ".meta"])
    by (unfold metaName, pathFromName; by apply Join_meta).
  rewrite Hpm in Hfile.
  pose proof Hfile as [[Hnil _]|(_ & Hroot & Hlook)]%namei_inl;
    [by destruct (rootDir env)|].
  rewrite removelast_last in Hroot.
  rewrite (List_run env s (glob (files s) (rootDir env) "*.meta"))
    by by apply Glob_meta.
  cbn [fst]. rewrite (glob_meta _ _ Hroot), omap_map, list_elem_of_omap.
  exists (name +:+ ".meta"). split.
  - apply elem_of_bool_filter. split; [|by apply Match_meta].
    apply elem_of_Readdirnames. by rewrite Hlook.
  - by rewrite (recorded_child _ _ _ Hroot), Hlook.
Qed.

(** X13: List shows every installed plugin whose name has no separator,
    with the flag its metadata file holds (the registry root holding no
    pattern character); so after an Enable or a Disable of such a plugin
    that returned nil, List shows it enabled, respectively disabled. *)
Theorem List_shows_installed env name enabled s :
  existsb hasMeta (rootDir env) = false ->
  no_slash name ->
  loadMetaByName env (files s) name = Ok (record name enabled) ->
  record name enabled ∈ fst (fst (List env s))
  /\ (fst (Enable env name s) = None ->
      record name true ∈ fst (fst (List env (snd (Enable env name s)))))
  /\ (fst (Disable env name s) = None ->
      record name false ∈ fst (fst (List env (snd (Disable env name s))))).
Proof.
  intros Hplain Hname Hload. split; [by apply installed_listed|].
  split; intros Hnil; apply installed_listed; try done.
  - by apply (Enable_nil _ _ enabled).
  - by apply (Disable_nil _ _ enabled).
Qed.

Lemma List_shows_installed_witness :
  record "log" true ∈ fst (fst (List sample_env installed_state))
  /\ record "log" false
     ∈ fst (fst (List sample_env (snd (Disable sample_env "log" installed_state)))).
Proof.
  destruct (List_shows_installed sample_env "log" true installed_state)
    as (Hin & _ & Hoff).
  - vm_compute. reflexivity.
  - apply no_slash_log.
  - vm_compute. reflexivity.
  - split; [exact Hin|]. apply Hoff. vm_compute. reflexivity.
Defined.



(** ** The invariant of the registry *)








(** ** Install followed by Inspect *)

(** On the way to something that is there, every component is a
    directory. *)
Lemma namei_prefix_dir fs p q x :
  namei fs p = inl x -> q `prefix_of` p -> q <> p -> q <> [] ->
  fs !! q = Some Directory.
Proof.
  revert x. induction p as [|c p IH] using rev_ind; intros x Hp Hq Hne Hnil.
  - apply prefix_nil_inv in Hq. congruence.
  - rewrite namei_snoc in Hp. unfold enter in Hp.
    destruct (namei fs p) as [[?|]|e] eqn:Hpar; try discriminate.
    assert (Hqp : q `prefix_of` p).
    { destruct Hq as [k Hk]. destruct k as [|y k _] using rev_ind.
      - rewrite app_nil_r in Hk. congruence.
      - rewrite app_assoc in Hk. apply app_inj_tail in Hk as [-> _].
        by apply prefix_app_r. }
    destruct (decide (q = p)) as [->|Hqne].
    + by apply namei_inl in Hpar as [[-> _]|(_ & _ & ?)].
    + by apply (IH IsDir).
Qed.

(** Writing one file does not change what another path leads to. *)
Lemma WriteFile_keeps q c fs fs' p x :
  WriteFile q c fs = Ok fs' -> q <> p ->
  namei fs p = inl x -> namei fs' p = inl x.
Proof.
  intros (Hq & _ & Hnodir & ->)%WriteFile_Ok Hne Hp.
  rewrite namei_insert_other; [done|].
  intros Hpre. apply Hnodir. by apply (namei_prefix_dir fs p q x).
Qed.

(** X16: when Install returns nil and the image copy has a path of its
    own (not that of the binary object, of the configuration or of the
    metadata file), inspecting the plugin by its effective name, no file
    of that name being in the way, gives nil and the manifest of the
    image that was installed: the same manifest as inspecting the image
    file itself did before. *)
Theorem Install_then_Inspect env sifPath name img s :
  LoadContainer (files s) (resolve (cwd env) sifPath) = Ok img ->
  isPluginFile img = true ->
  let effective :=
    if decide (name = "") then pluginapi.Name (getManifest img) else name in
  let m := record effective true in
  imageName env m <> binaryName env m ->
  imageName env m <> configName env m ->
  imageName env m <> metaName env m ->
  fst (Install env sifPath name s) = None ->
  let s1 := snd (Install env sifPath name s) in
  Stat (files s1) (resolve (cwd env) effective) = Err (PathError "stat" ENOENT) ->
  Inspect env effective s1 = ((getManifest img, None), s1)
  /\ fst (Inspect env sifPath s) = (getManifest img, None).
Proof.
  intros Hload Hplug eff m Hb Hc Hm Hok s1 Hstat.
  split.
  - pose proof (Install_run env sifPath name img s Hload Hplug) as Hrun.
    cbv zeta in Hrun. fold eff in Hrun.
    subst s1. rewrite Hrun in Hok, Hstat |- *. cbn [fst snd] in Hok, Hstat |- *.
    match type of Hok with
    | context [install env ?m' ?s0] =>
        assert (Hinst : fst (install env m' s0) = None)
          by (destruct (fst (install env m' s0)); [discriminate|reflexivity]);
        pose proof (install_success _ _ _ Hinst) as Hmeta;
        apply install_Ok in Hinst
          as (img' & fs1 & fs2 & fs3 & fs4 & fs5 & [= <-] & _ & H2 & H3 & H4 & H5
              & Hs1 & _)
    end.
    rewrite Hs1 in Hmeta, Hstat |- *. cbn [files Name] in Hmeta.
    rewrite (Inspect_by_name _ _ _ _ Hstat eq_refl). cbn [files].
    assert (Hrec : loadMetaByName env fs5 eff = Ok (record eff true)).
    { unfold loadMetaByName, loadMetaByFilename.
      change (metaName env {| Name := eff; Enabled := false; sifFile := None |})
        with (metaName env {| Name := eff; Enabled := true; sifFile := Some img |}).
      by rewrite Hmeta. }
    rewrite Hrec.
    rewrite (Inspect_load_image _ _ img); [by rewrite Hplug|].
    unfold LoadContainer. subst m.
    assert (Himg : namei fs5 (imageName env (record eff true))
                   = inl (IsFile (SIF img))).
    { apply (WriteFile_keeps _ _ _ _ _ _ H5); [by apply not_eq_sym|].
      apply (WriteFile_keeps _ _ _ _ _ _ H4); [by apply not_eq_sym|].
      apply (WriteFile_keeps _ _ _ _ _ _ H3); [by apply not_eq_sym|].
      apply WriteFile_Ok in H2 as (Hne & Hdir & _ & ->).
      by apply namei_insert_file. }
    by rewrite Himg.
  - assert (Hthere : exists fi, Stat (files s) (resolve (cwd env) sifPath) = Ok fi).
    { unfold LoadContainer in Hload. unfold Stat.
      destruct (resolve (cwd env) sifPath) as [p|]; [|discriminate].
      destruct (namei (files s) p) as [[?|]|?]; try discriminate; by eexists. }
    destruct Hthere as [fi Hfi].
    rewrite (Inspect_there _ _ _ _ Hfi), (Inspect_load_image _ _ img _ Hload).
    by rewrite Hplug.
Qed.

Lemma Install_then_Inspect_witness :
  Inspect sample_env "log" installed_state
  = ((getManifest sample_image, None), installed_state)
  /\ fst (Inspect sample_env "log.sif" sample_state)
     = (getManifest sample_image, None).
Proof.
  apply (Install_then_Inspect sample_env "log.sif" "log" sample_image sample_state);
    try (vm_compute; reflexivity); try (vm_compute; discriminate).
Defined.

(** ** A plugin that was just installed *)

(** X17: a plugin that Install just installed is enabled: Enable on its
    effective name returns nil and only notes that it is already
    enabled, writing nothing, and Disable returns nil and leaves it
    disabled. *)
Theorem fresh_install_is_enabled env sifPath name img s :
  LoadContainer (files s) (resolve (cwd env) sifPath) = Ok img ->
  isPluginFile img = true ->
  fst (Install env sifPath name s) = None ->
  let effective :=
    if decide (name = "") then pluginapi.Name (getManifest img) else name in
  let s1 := snd (Install env sifPath name s) in
  Enable env effective s1
  = (None,
     logged s1 [Entry DebugLevel "Enabling plugin %q in %q"
                      [AString effective; AString (path_string (rootDir env))];
                Entry DebugLevel "Found plugin %q, meta=%#v"
                      [AString effective; AMeta (record effective true)];
                Entry InfoLevel "Plugin %q is already enabled"
                      [AString effective]])
  /\ fst (Disable env effective s1) = None
  /\ loadMetaByName env (files (snd (Disable env effective s1))) effective
     = Ok (record effective false).
Proof.
  intros Hload Hplug Hok eff s1.
  pose proof (Install_run env sifPath name img s Hload Hplug) as Hrun.
  cbv zeta in Hrun. fold eff in Hrun.
  assert (Hs1 : loadMetaByName env (files s1) eff = Ok (record eff true)
                /\ writable s1 = true).
  { subst s1. rewrite Hrun in Hok |- *. cbn [fst snd] in Hok |- *.
    match type of Hok with
    | context [install env ?m' ?s0] =>
        assert (Hinst : fst (install env m' s0) = None)
          by (destruct (fst (install env m' s0)); [discriminate|reflexivity]);
        pose proof (install_success _ _ _ Hinst) as Hmeta;
        apply install_Ok in Hinst
          as (? & ? & ? & ? & ? & fs5 & _ & _ & _ & _ & _ & _ & Hs & Hw)
    end.
    rewrite Hs in Hmeta |- *. cbn [files writable Name] in Hmeta |- *.
    split; [|exact Hw].
    unfold loadMetaByName, loadMetaByFilename.
    change (metaName env {| Name := eff; Enabled := false; sifFile := None |})
      with (metaName env {| Name := eff; Enabled := true; sifFile := Some img |}).
    by rewrite Hmeta. }
  destruct Hs1 as [Hrec Hw].
  split.
  - rewrite (Enable_found _ _ _ _ Hrec). cbn [Enabled record].
    unfold logged. cbn [files log writable]. by rewrite <- app_assoc.
  - by destruct (Disable_installed _ _ _ _ Hw Hrec) as (? & _ & ? & _).
Qed.

Lemma fresh_install_is_enabled_witness :
  fst (Enable sample_env "log" installed_state) = None
  /\ fst (Disable sample_env "log" installed_state) = None
  /\ loadMetaByName sample_env
       (files (snd (Disable sample_env "log" installed_state))) "log"
     = Ok (record "log" false).
Proof.
  destruct (fresh_install_is_enabled sample_env "log.sif" "log" sample_image
              sample_state) as (He & Hd & Hoff);
    [vm_compute; reflexivity | reflexivity | vm_compute; reflexivity |].
  split; [|split; [exact Hd | exact Hoff]].
  exact (f_equal fst He).
Defined.

(** X18: Enable and Disable touch one file at most, the metadata file of
    the record they loaded: every other path (the image copy, the binary
    object, the files of other plugins) holds after them what it held
    before. *)
Theorem toggle_touches_one_file env name s p :
  (forall meta,
     loadMetaByName env (files s) name = Ok meta -> p <> metaName env meta) ->
  files (snd (Enable env name s)) !! p = files s !! p
  /\ files (snd (Disable env name s)) !! p = files s !! p.
Proof.
  intros Hother.
  destruct (loadMetaByName env (files s) name) as [meta|err] eqn:Hload.
  - specialize (Hother meta eq_refl). split.
    + rewrite (Enable_found _ _ _ _ Hload). cbv zeta.
      destruct (Enabled meta); [done|]. unfold enable. step_cases; [done|].
      cbn [snd files]. apply WriteFile_Ok in Hop as (_ & _ & _ & ->).
      by apply lookup_insert_ne.
    + rewrite (Disable_found _ _ _ _ Hload). cbv zeta.
      destruct (Enabled meta); [|done]. unfold disable. step_cases; [done|].
      cbn [snd files]. apply WriteFile_Ok in Hop as (_ & _ & _ & ->).
      by apply lookup_insert_ne.
  - unfold Enable, Disable. run. by rewrite Hload.
Qed.

Lemma toggle_touches_one_file_witness :
  files (snd (Disable sample_env "log" installed_state))
    !! imageName sample_env (record "log" true)
  = Some (Regular (SIF sample_image)).
Proof.
  destruct (toggle_touches_one_file sample_env "log" installed_state
              (imageName sample_env (record "log" true))) as [_ ->].
  - intros meta Hmeta.
    assert (meta = record "log" true) as ->
      by (vm_compute in Hmeta; by injection Hmeta as <-).
    vm_compute. discriminate.
  - vm_compute. reflexivity.
Defined.
